(** * Inventory management service: a model of [backend/server.py]

    The service keeps three MongoDB collections ([status_checks],
    [residents], [items]) and exposes one FastAPI route handler per
    operation.  Each handler is embedded as a function in a small
    state-and-exception monad over the database; the collections are lists
    of documents in natural (insertion) order, and the collection methods
    the handlers call ([find_one], [update_one], [delete_one],
    [delete_many], [insert_one], [find(...).to_list(n)]) are embedded with
    their first-match / all-matches behaviour.

    Modelling boundaries, stated once:
    - Python [int] is [Z] (unbounded); the 64-bit limit of BSON is not
      modelled.  Python [float] is a binary64 [float].  A [datetime] is
      its number of microseconds since the epoch; the copy stored in the
      database keeps milliseconds only.
    - Python [str] is a [string] holding the UTF-8 bytes of the text.
    - What a handler takes from its environment rather than from the
      request ([uuid.uuid4()], [datetime.now()], [datetime.utcnow()]) is an
      explicit argument of the handler.
    - A handler is embedded twice.  As a function it runs from its first
      [await] to its last without another request in between: this is
      the handler served alone.  As a task it makes one storage call per
      [await], and what other requests do to the database between two
      calls is accounted for; run alone, the task is the function.
    - Request bodies arrive already validated against their pydantic class;
      keys a class does not declare are dropped, an optional key that is
      omitted takes the declared default. *)

From Stdlib Require Import ZArith List String Bool Lia.
From Stdlib Require Import Floats.PrimFloat.
Import ListNotations.

Local Open Scope string_scope.
Local Open Scope list_scope.
Local Open Scope Z_scope.

(** ** Pydantic models *)

Module Resident.
Record t : Type := mk { id : string; name : string }.
End Resident.

Module ResidentCreate.
Record t : Type := mk { name : string }.
End ResidentCreate.

Module ResidentUpdate.
Record t : Type := mk { name : string }.
End ResidentUpdate.

Module Purchase.
Record t : Type := mk { date : string; qty : Z; price : float }.
End Purchase.

Module UsageHistory.
Record t : Type := mk { date : string; qty : Z }.
End UsageHistory.

(** The declared default of [Item.source] and [ItemCreate.source]: the
    two-character Japanese word written in the source, as UTF-8. *)
Definition default_source : string := "購入".

Module Item.
Record t : Type := mk {
  id : string;
  residentId : string;
  name : string;
  quantity : Z;
  used : Z;
  min : Z;
  source : string;
  purchases : list Purchase.t;
  usageHistory : list UsageHistory.t
}.
End Item.

Module ItemCreate.
Record t : Type := mk {
  residentId : string;
  name : string;
  quantity : Z;
  used : Z;
  min : Z;
  source : string
}.

(** The JSON object posted to [/items]: the two required keys, the four
    keys with a default ([None]: key omitted), and the keys of [Item]
    that [ItemCreate] does not declare. *)
Record body : Type := mk_body {
  b_residentId : string;
  b_name : string;
  b_quantity : option Z;
  b_used : option Z;
  b_min : option Z;
  b_source : option string;
  b_id : option string;
  b_purchases : option (list Purchase.t);
  b_usageHistory : option (list UsageHistory.t)
}.

Definition or_default {A : Type} (o : option A) (d : A) : A :=
  match o with Some v => v | None => d end.

(** The constructor call of [ItemCreate] on the body: defaults [0],
    [0], [0] and [default_source]; undeclared keys ignored. *)
Definition parse (b : body) : t :=
  mk (b_residentId b) (b_name b)
     (or_default (b_quantity b) 0)
     (or_default (b_used b) 0)
     (or_default (b_min b) 0)
     (or_default (b_source b) default_source).
End ItemCreate.

Module ItemUpdate.
(** Every field is [Optional[...] = None]: [None] stands for a key that
    is omitted (or sent as [null]). *)
Record t : Type := mk {
  name : option string;
  quantity : option Z;
  used : option Z;
  min : option Z;
  source : option string
}.
End ItemUpdate.

Module PurchaseCreate.
Record t : Type := mk { qty : Z; price : float }.

(** The constructor call of [PurchaseCreate] on the body: [price]
    defaults to [0.0]. *)
Definition parse (qty : Z) (price : option float) : t :=
  mk qty (match price with Some p => p | None => 0%float end).
End PurchaseCreate.

Module UsageCreate.
Record t : Type := mk { qty : Z }.
End UsageCreate.

Module StatusCheck.
(** [timestamp] is the [datetime] as microseconds since the epoch. *)
Record t : Type := mk { id : string; client_name : string; timestamp : Z }.
End StatusCheck.

Module StatusCheckCreate.
Record t : Type := mk { client_name : string }.
End StatusCheckCreate.

(** [Item] built from [item.dict()] in [create_item]: the six keys of
    [ItemCreate] are passed on, [id] comes from the default factory, and
    [purchases] and [usageHistory] take their default, the empty list. *)
Definition Item_of_ItemCreate (uuid4 : string) (c : ItemCreate.t) : Item.t :=
  Item.mk uuid4 (ItemCreate.residentId c) (ItemCreate.name c)
          (ItemCreate.quantity c) (ItemCreate.used c) (ItemCreate.min c)
          (ItemCreate.source c) [] [].

(** ** The database and its collections *)

Record DB : Type := mk_DB {
  status_checks : list StatusCheck.t;
  residents : list Resident.t;
  items : list Item.t
}.

Definition empty_DB : DB := mk_DB [] [] [].

(** A collection of the database: how to read its documents and how to
    replace them. *)
Record collection (A : Type) : Type := mk_collection {
  docs : DB -> list A;
  with_docs : list A -> DB -> DB
}.
Arguments docs {A} _ _.
Arguments with_docs {A} _ _ _.

Definition db_status_checks : collection StatusCheck.t :=
  mk_collection _ status_checks
    (fun l db => mk_DB l (residents db) (items db)).

Definition db_residents : collection Resident.t :=
  mk_collection _ residents
    (fun l db => mk_DB (status_checks db) l (items db)).

Definition db_items : collection Item.t :=
  mk_collection _ items
    (fun l db => mk_DB (status_checks db) (residents db) l).

Section Documents.
Context {A : Type}.

(** The first document that matches is replaced by its update. *)
Fixpoint update_first (flt : A -> bool) (u : A -> A) (l : list A) : list A :=
  match l with
  | [] => []
  | d :: l' => if flt d then u d :: l' else d :: update_first flt u l'
  end.

(** The first document that matches is removed. *)
Fixpoint delete_first (flt : A -> bool) (l : list A) : list A :=
  match l with
  | [] => []
  | d :: l' => if flt d then l' else d :: delete_first flt l'
  end.

Definition delete_all (flt : A -> bool) (l : list A) : list A :=
  filter (fun d => negb (flt d)) l.
End Documents.

(** ** Handlers: state over the database, [HTTPException] as the error *)

Inductive result (A : Type) : Type :=
| Ok (a : A)
| HTTPException (status_code : Z) (detail : string).
Arguments Ok {A} a.
Arguments HTTPException {A} status_code detail.

Definition handler (A : Type) : Type := DB -> result A * DB.

Definition ret {A : Type} (a : A) : handler A := fun db => (Ok a, db).

Definition raise {A : Type} (status_code : Z) (detail : string) : handler A :=
  fun db => (HTTPException status_code detail, db).

Definition bind {A B : Type} (c : handler A) (k : A -> handler B) : handler B :=
  fun db =>
    match c db with
    | (Ok a, db') => k a db'
    | (HTTPException sc d, db') => (HTTPException sc d, db')
    end.

Notation "x <- c ;; k" := (bind c (fun x => k))
  (at level 61, c at next level, right associativity).
Notation "c ;;; k" := (bind c (fun _ => k))
  (at level 61, right associativity).

Section CollectionMethods.
Context {A : Type} (c : collection A).

Definition find_one (flt : A -> bool) : handler (option A) :=
  fun db => (Ok (find flt (docs c db)), db).

Definition find_to_list (flt : A -> bool) (length : nat) : handler (list A) :=
  fun db => (Ok (firstn length (filter flt (docs c db))), db).

Definition insert_one (d : A) : handler unit :=
  fun db => (Ok tt, with_docs c (docs c db ++ [d]) db).

Definition update_one (flt : A -> bool) (u : A -> A) : handler unit :=
  fun db => (Ok tt, with_docs c (update_first flt u (docs c db)) db).

(** Returns [deleted_count]. *)
Definition delete_one (flt : A -> bool) : handler Z :=
  fun db =>
    (Ok (if existsb flt (docs c db) then 1 else 0),
     with_docs c (delete_first flt (docs c db)) db).

Definition delete_many (flt : A -> bool) : handler Z :=
  fun db =>
    (Ok (Z.of_nat (List.length (filter flt (docs c db)))),
     with_docs c (delete_all flt (docs c db)) db).
End CollectionMethods.

(** Filters: the query documents [{"id": x}], [{"residentId": x}], [{}]. *)
Definition resident_id_is (x : string) (d : Resident.t) : bool :=
  String.eqb (Resident.id d) x.

Definition item_id_is (x : string) (d : Item.t) : bool :=
  String.eqb (Item.id d) x.

Definition item_residentId_is (x : string) (d : Item.t) : bool :=
  String.eqb (Item.residentId d) x.

Definition no_filter {A : Type} (d : A) : bool := true.

(** Update documents on an item. *)
Inductive item_field : Type :=
| F_name (v : string)
| F_quantity (v : Z)
| F_used (v : Z)
| F_min (v : Z)
| F_source (v : string).

Definition set_field (it : Item.t) (f : item_field) : Item.t :=
  match f with
  | F_name v =>
      Item.mk (Item.id it) (Item.residentId it) v (Item.quantity it)
              (Item.used it) (Item.min it) (Item.source it)
              (Item.purchases it) (Item.usageHistory it)
  | F_quantity v =>
      Item.mk (Item.id it) (Item.residentId it) (Item.name it) v
              (Item.used it) (Item.min it) (Item.source it)
              (Item.purchases it) (Item.usageHistory it)
  | F_used v =>
      Item.mk (Item.id it) (Item.residentId it) (Item.name it) (Item.quantity it)
              v (Item.min it) (Item.source it)
              (Item.purchases it) (Item.usageHistory it)
  | F_min v =>
      Item.mk (Item.id it) (Item.residentId it) (Item.name it) (Item.quantity it)
              (Item.used it) v (Item.source it)
              (Item.purchases it) (Item.usageHistory it)
  | F_source v =>
      Item.mk (Item.id it) (Item.residentId it) (Item.name it) (Item.quantity it)
              (Item.used it) (Item.min it) v
              (Item.purchases it) (Item.usageHistory it)
  end.

(** [{"$set": fields}] *)
Definition dollar_set (fields : list item_field) (it : Item.t) : Item.t :=
  fold_left set_field fields it.

(** [{"$inc": {"quantity": n}}] and [{"$inc": {"used": n}}] *)
Definition inc_quantity (n : Z) (it : Item.t) : Item.t :=
  set_field it (F_quantity (Item.quantity it + n)).

Definition inc_used (n : Z) (it : Item.t) : Item.t :=
  set_field it (F_used (Item.used it + n)).

(** [{"$push": {"purchases": p}}] and [{"$push": {"usageHistory": u}}] *)
Definition push_purchases (p : Purchase.t) (it : Item.t) : Item.t :=
  Item.mk (Item.id it) (Item.residentId it) (Item.name it) (Item.quantity it)
          (Item.used it) (Item.min it) (Item.source it)
          (Item.purchases it ++ [p]) (Item.usageHistory it).

Definition push_usageHistory (u : UsageHistory.t) (it : Item.t) : Item.t :=
  Item.mk (Item.id it) (Item.residentId it) (Item.name it) (Item.quantity it)
          (Item.used it) (Item.min it) (Item.source it)
          (Item.purchases it) (Item.usageHistory it ++ [u]).

(** ** Route handlers *)

(** Truth value of an [Optional[str]]: [None] and the empty string are
    false. *)
Definition truthy (o : option string) : bool :=
  match o with
  | None => false
  | Some s => negb (String.eqb s "")
  end.

(** Truth value of a document returned by [find_one]: [None] is false (a
    stored document is never the empty dict). *)
Definition found {A : Type} (o : option A) : bool :=
  match o with None => false | Some _ => true end.

(** The second [find_one] of a handler returns a document whenever the
    first did; its [None] branch is the failure of the model constructor
    on [None], a server error. *)
Definition refreshed {A : Type} (o : option A) : handler A :=
  match o with
  | Some d => ret d
  | None => raise 500 "Internal Server Error"
  end.

Definition root : handler string :=
  ret "Inventory Management System API".

(** A [datetime] stored in MongoDB keeps milliseconds only: the document
    holds the time rounded down to a whole millisecond. *)
Definition bson_datetime (t : Z) : Z := 1000 * (t / 1000).

(** The document [insert_one] writes for [status_obj.dict()]. *)
Definition StatusCheck_document (s : StatusCheck.t) : StatusCheck.t :=
  StatusCheck.mk (StatusCheck.id s) (StatusCheck.client_name s)
                 (bson_datetime (StatusCheck.timestamp s)).

Definition create_status_check (uuid4 : string) (utcnow : Z)
    (input : StatusCheckCreate.t) : handler StatusCheck.t :=
  let status_obj :=
    StatusCheck.mk uuid4 (StatusCheckCreate.client_name input) utcnow in
  insert_one db_status_checks (StatusCheck_document status_obj) ;;;
  ret status_obj.

Definition get_status_checks : handler (list StatusCheck.t) :=
  find_to_list db_status_checks no_filter 1000.

Definition get_residents : handler (list Resident.t) :=
  find_to_list db_residents no_filter 1000.

Definition create_resident (uuid4 : string) (resident : ResidentCreate.t)
    : handler Resident.t :=
  let resident_obj := Resident.mk uuid4 (ResidentCreate.name resident) in
  insert_one db_residents resident_obj ;;;
  ret resident_obj.

Definition update_resident (resident_id : string)
    (resident_update : ResidentUpdate.t) : handler Resident.t :=
  resident <- find_one db_residents (resident_id_is resident_id) ;;
  if negb (found resident) then raise 404 "Resident not found" else
  update_one db_residents (resident_id_is resident_id)
    (fun r => Resident.mk (Resident.id r) (ResidentUpdate.name resident_update)) ;;;
  updated_resident <- find_one db_residents (resident_id_is resident_id) ;;
  refreshed updated_resident.

Definition delete_resident (resident_id : string) : handler string :=
  deleted_count <- delete_one db_residents (resident_id_is resident_id) ;;
  if deleted_count =? 0 then raise 404 "Resident not found" else
  delete_many db_items (item_residentId_is resident_id) ;;;
  ret "Resident and associated items deleted successfully".

Definition get_items (resident_id : option string) : handler (list Item.t) :=
  let filter_dict :=
    match resident_id with
    | Some r => if truthy resident_id then item_residentId_is r else no_filter
    | None => no_filter
    end in
  find_to_list db_items filter_dict 1000.

Definition create_item (uuid4 : string) (item : ItemCreate.t) : handler Item.t :=
  let item_obj := Item_of_ItemCreate uuid4 item in
  insert_one db_items item_obj ;;;
  ret item_obj.

(** [{k: v for k, v in item_update.dict().items() if v is not None}] *)
Definition update_dict (item_update : ItemUpdate.t) : list item_field :=
  let entry {V : Type} (k : V -> item_field) (v : option V) :=
    match v with Some x => [k x] | None => [] end in
  entry F_name (ItemUpdate.name item_update)
  ++ entry F_quantity (ItemUpdate.quantity item_update)
  ++ entry F_used (ItemUpdate.used item_update)
  ++ entry F_min (ItemUpdate.min item_update)
  ++ entry F_source (ItemUpdate.source item_update).

(** An empty [update_dict] is an update that changes nothing (MongoDB 5.0
    and later accept an empty [$set]). *)
Definition update_item (item_id : string) (item_update : ItemUpdate.t)
    : handler Item.t :=
  item <- find_one db_items (item_id_is item_id) ;;
  if negb (found item) then raise 404 "Item not found" else
  update_one db_items (item_id_is item_id)
    (dollar_set (update_dict item_update)) ;;;
  updated_item <- find_one db_items (item_id_is item_id) ;;
  refreshed updated_item.

Definition delete_item (item_id : string) : handler string :=
  deleted_count <- delete_one db_items (item_id_is item_id) ;;
  if deleted_count =? 0 then raise 404 "Item not found" else
  ret "Item deleted successfully".

Definition add_purchase (today : string) (item_id : string)
    (purchase : PurchaseCreate.t) : handler Item.t :=
  item <- find_one db_items (item_id_is item_id) ;;
  if negb (found item) then raise 404 "Item not found" else
  let new_purchase :=
    Purchase.mk today (PurchaseCreate.qty purchase)
                (PurchaseCreate.price purchase) in
  update_one db_items (item_id_is item_id)
    (fun d => push_purchases new_purchase
                (inc_quantity (PurchaseCreate.qty purchase) d)) ;;;
  updated_item <- find_one db_items (item_id_is item_id) ;;
  refreshed updated_item.

Definition add_usage (today : string) (item_id : string)
    (usage : UsageCreate.t) : handler Item.t :=
  item <- find_one db_items (item_id_is item_id) ;;
  match item with
  | None => raise 404 "Item not found"
  | Some it =>
      if Item.quantity it <? UsageCreate.qty usage
      then raise 400 "Not enough quantity in stock"
      else
        let new_usage := UsageHistory.mk today (UsageCreate.qty usage) in
        update_one db_items (item_id_is item_id)
          (fun d => push_usageHistory new_usage
                      (inc_used (UsageCreate.qty usage)
                         (inc_quantity (- UsageCreate.qty usage) d))) ;;;
        updated_item <- find_one db_items (item_id_is item_id) ;;
        refreshed updated_item
  end.

Definition adjust_quantity (item_id : string) (delta : Z) : handler Item.t :=
  item <- find_one db_items (item_id_is item_id) ;;
  match item with
  | None => raise 404 "Item not found"
  | Some it =>
      let new_quantity := Z.max 0 (Item.quantity it + delta) in
      update_one db_items (item_id_is item_id)
        (fun d => set_field d (F_quantity new_quantity)) ;;;
      updated_item <- find_one db_items (item_id_is item_id) ;;
      refreshed updated_item
  end.

(** ** The service as a transition system *)

(** One constructor per route; what the handler reads from its environment
    travels with the request. *)
Inductive request : Type :=
| GET_root
| POST_status (uuid4 : string) (utcnow : Z) (input : StatusCheckCreate.t)
| GET_status
| GET_residents
| POST_residents (uuid4 : string) (resident : ResidentCreate.t)
| PUT_residents (resident_id : string) (resident_update : ResidentUpdate.t)
| DELETE_residents (resident_id : string)
| GET_items (resident_id : option string)
| POST_items (uuid4 : string) (item : ItemCreate.body)
| PUT_items (item_id : string) (item_update : ItemUpdate.t)
| DELETE_items (item_id : string)
| POST_purchase (today : string) (item_id : string) (purchase : PurchaseCreate.t)
| POST_usage (today : string) (item_id : string) (usage : UsageCreate.t)
| POST_adjust_quantity (item_id : string) (delta : Z).

Inductive response : Type :=
| R_message (message : string)
| R_status (s : StatusCheck.t)
| R_statuses (l : list StatusCheck.t)
| R_resident (r : Resident.t)
| R_residents (l : list Resident.t)
| R_item (i : Item.t)
| R_items (l : list Item.t).

Definition respond {A : Type} (wrap : A -> response) (h : handler A)
    : handler response :=
  a <- h ;; ret (wrap a).

Definition serve (rq : request) : handler response :=
  match rq with
  | GET_root => respond R_message root
  | POST_status u now input => respond R_status (create_status_check u now input)
  | GET_status => respond R_statuses get_status_checks
  | GET_residents => respond R_residents get_residents
  | POST_residents u r => respond R_resident (create_resident u r)
  | PUT_residents rid ru => respond R_resident (update_resident rid ru)
  | DELETE_residents rid => respond R_message (delete_resident rid)
  | GET_items rid => respond R_items (get_items rid)
  | POST_items u b => respond R_item (create_item u (ItemCreate.parse b))
  | PUT_items iid iu => respond R_item (update_item iid iu)
  | DELETE_items iid => respond R_message (delete_item iid)
  | POST_purchase today iid p => respond R_item (add_purchase today iid p)
  | POST_usage today iid u => respond R_item (add_usage today iid u)
  | POST_adjust_quantity iid delta => respond R_item (adjust_quantity iid delta)
  end.

(** The database after a request. *)
Definition after (rq : request) (db : DB) : DB := snd (serve rq db).

(** The states the service can be in: the empty database, and whatever a
    request leaves behind. *)
Inductive reachable : DB -> Prop :=
| reachable_empty : reachable empty_DB
| reachable_after rq db : reachable db -> reachable (after rq db).

(** Every stored item has a quantity of at least zero. *)
Definition quantity_nonneg (db : DB) : Prop :=
  Forall (fun it => 0 <= Item.quantity it) (items db).

(** The pattern shared by the four mutating item handlers: update the
    first item with the id, then read it back. *)
Definition update_and_refresh (item_id : string) (u : Item.t -> Item.t)
    : handler Item.t :=
  update_one db_items (item_id_is item_id) u ;;;
  updated_item <- find_one db_items (item_id_is item_id) ;;
  refreshed updated_item.

(** ** What the mutating item handlers store *)

(** The item [add_usage] stores and returns when it accepts the request. *)
Definition used_item (today : string) (qty : Z) (it : Item.t) : Item.t :=
  Item.mk (Item.id it) (Item.residentId it) (Item.name it)
          (Item.quantity it - qty) (Item.used it + qty)
          (Item.min it) (Item.source it) (Item.purchases it)
          (Item.usageHistory it ++ [UsageHistory.mk today qty]).

(** ** Sample data *)

Definition soap : Item.t :=
  Item.mk "i1" "r1" "soap" 15 0 5 default_source [] [].

Definition towel : Item.t :=
  Item.mk "i2" "r2" "towel" 3 1 1 "gift" [] [].

Definition sample_DB : DB :=
  mk_DB [] [Resident.mk "r1" "Sato"; Resident.mk "r2" "Tanaka"] [soap; towel].

(** The item [add_purchase] stores and returns. *)
Definition purchased_item (today : string) (qty : Z) (price : float)
    (it : Item.t) : Item.t :=
  Item.mk (Item.id it) (Item.residentId it) (Item.name it)
          (Item.quantity it + qty) (Item.used it)
          (Item.min it) (Item.source it)
          (Item.purchases it ++ [Purchase.mk today qty price])
          (Item.usageHistory it).

(** The item [adjust_quantity] stores and returns. *)
Definition adjusted_item (delta : Z) (it : Item.t) : Item.t :=
  Item.mk (Item.id it) (Item.residentId it) (Item.name it)
          (Z.max 0 (Item.quantity it + delta)) (Item.used it)
          (Item.min it) (Item.source it)
          (Item.purchases it) (Item.usageHistory it).

(** The item [update_item] stores and returns: a field of the request
    that holds a value replaces the item's, a field that is [None] keeps
    it. *)
Definition updated_item (item_update : ItemUpdate.t) (it : Item.t) : Item.t :=
  Item.mk (Item.id it) (Item.residentId it)
          (ItemCreate.or_default (ItemUpdate.name item_update) (Item.name it))
          (ItemCreate.or_default (ItemUpdate.quantity item_update) (Item.quantity it))
          (ItemCreate.or_default (ItemUpdate.used item_update) (Item.used it))
          (ItemCreate.or_default (ItemUpdate.min item_update) (Item.min it))
          (ItemCreate.or_default (ItemUpdate.source item_update) (Item.source it))
          (Item.purchases it) (Item.usageHistory it).

(** A request body for [POST /items] that gives only the required keys. *)
Definition minimal_body : ItemCreate.body :=
  ItemCreate.mk_body "r1" "soap" None None None None None None None.

(** ** Runs *)

(** The database after a sequence of requests, served one after another. *)
Definition run (rqs : list request) (db : DB) : DB :=
  fold_left (fun d rq => after rq d) rqs db.

(** ** Where the history records of an item come from *)

(** The record a request appends to [purchases], if it is a purchase. *)
Definition purchase_of (rq : request) : option Purchase.t :=
  match rq with
  | POST_purchase today _ p =>
      Some (Purchase.mk today (PurchaseCreate.qty p) (PurchaseCreate.price p))
  | _ => None
  end.

(** The record a request appends to [usageHistory], if it is a usage. *)
Definition usage_of (rq : request) : option UsageHistory.t :=
  match rq with
  | POST_usage today _ u => Some (UsageHistory.mk today (UsageCreate.qty u))
  | _ => None
  end.

Definition same_or_appended {A : Type} (appended : option A)
    (old new : list A) : Prop :=
  new = old \/ exists r, appended = Some r /\ new = old ++ [r].

(** An item found after a request is either one the request created, with
    both histories empty, or an item that was there before, with each
    history as it was or longer by the one record the request appends. *)
Definition history_origin (rq : request) (db : DB) (it' : Item.t) : Prop :=
  ((exists u b, rq = POST_items u b)
   /\ Item.purchases it' = [] /\ Item.usageHistory it' = [])
  \/ exists it,
       In it (items db)
       /\ Item.id it' = Item.id it
       /\ same_or_appended (purchase_of rq)
            (Item.purchases it) (Item.purchases it')
       /\ same_or_appended (usage_of rq)
            (Item.usageHistory it) (Item.usageHistory it').

(** A creation body that tries to supply histories and an id. *)
Definition body_with_histories : ItemCreate.body :=
  ItemCreate.mk_body "r1" "soap" (Some 4) None None None
    (Some "chosen-id")
    (Some [Purchase.mk "2020-01-01" 99 1%float])
    (Some [UsageHistory.mk "2020-01-02" 7]).

(** ** Proof automation: unfolding a handler down to its reads and writes *)

Ltac run_handler :=
  unfold after, serve, respond, root, create_status_check, get_status_checks,
    get_residents, create_resident, update_resident, delete_resident,
    get_items, create_item, update_item, delete_item, add_purchase,
    add_usage, adjust_quantity, bind, find_one, find_to_list, insert_one,
    update_one, delete_one, delete_many, refreshed, ret, raise;
  cbn [docs with_docs db_status_checks db_residents db_items
       status_checks residents items fst snd].

Ltac split_reads :=
  repeat match goal with
         | |- context [match find ?f ?l with _ => _ end] =>
             destruct (find f l)
         | |- context [found (find ?f ?l)] => destruct (find f l)
         | |- context [if ?b then _ else _] => destruct b
         end;
  cbn [found negb snd items].

(** A database with a thousand residents and no items. *)
Definition crowded_DB : DB :=
  mk_DB [] (repeat (Resident.mk "r0" "Sato") 1000) [].

(** ** Which collections a route writes *)

Definition writes_status_checks (rq : request) : bool :=
  match rq with
  | POST_status _ _ _ => true
  | _ => false
  end.

Definition writes_residents (rq : request) : bool :=
  match rq with
  | POST_residents _ _ | PUT_residents _ _ | DELETE_residents _ => true
  | _ => false
  end.

Definition writes_items (rq : request) : bool :=
  match rq with
  | DELETE_residents _ | POST_items _ _ | PUT_items _ _ | DELETE_items _
  | POST_purchase _ _ _ | POST_usage _ _ _ | POST_adjust_quantity _ _ => true
  | _ => false
  end.

(** ** Identity of documents *)

Definition adds_or_removes_items (rq : request) : bool :=
  match rq with
  | POST_items _ _ | DELETE_items _ | DELETE_residents _ => true
  | _ => false
  end.

Definition adds_or_removes_residents (rq : request) : bool :=
  match rq with
  | POST_residents _ _ | DELETE_residents _ => true
  | _ => false
  end.

(** The id and the owner of an item. *)
Definition item_key (it : Item.t) : string * string :=
  (Item.id it, Item.residentId it).

(** No two items share an id, and no two residents do. *)
Definition unique_ids (db : DB) : Prop :=
  NoDup (map Item.id (items db)) /\ NoDup (map Resident.id (residents db)).

(** The id that [uuid.uuid4()] hands to a creation is not the id of a
    stored document of the collection. *)
Definition fresh_uuid (rq : request) (db : DB) : Prop :=
  match rq with
  | POST_items u _ => ~ In u (map Item.id (items db))
  | POST_residents u _ => ~ In u (map Resident.id (residents db))
  | _ => True
  end.

(** ** Handlers await by await

    Between two [await]s of a handler other requests may run.  Here each
    handler is a task that makes one storage call per [await]; run with
    no one else about, a task is the handler above
    ([serve_task_alone]). *)

Inductive task (A : Type) : Type :=
| Return (r : result A)
| Await {X : Type} (call : handler X) (k : X -> task A).
Arguments Return {A} r.
Arguments Await {A X} call k.

Notation "x <~ call ;; k" := (Await call (fun x => k))
  (at level 61, call at next level, right associativity).

(** The read-back, the [Item] built from [updated_item], as the last
    step of a task. *)
Definition refreshed_task {A : Type} (o : option A) : task A :=
  match o with
  | Some d => Return (Ok d)
  | None => Return (HTTPException 500 "Internal Server Error")
  end.

Definition root_task : task string :=
  Return (Ok "Inventory Management System API").

Definition create_status_check_task (uuid4 : string) (utcnow : Z)
    (input : StatusCheckCreate.t) : task StatusCheck.t :=
  let status_obj :=
    StatusCheck.mk uuid4 (StatusCheckCreate.client_name input) utcnow in
  _ <~ insert_one db_status_checks (StatusCheck_document status_obj) ;;
  Return (Ok status_obj).

Definition get_status_checks_task : task (list StatusCheck.t) :=
  status_checks <~ find_to_list db_status_checks no_filter 1000 ;;
  Return (Ok status_checks).

Definition get_residents_task : task (list Resident.t) :=
  residents <~ find_to_list db_residents no_filter 1000 ;;
  Return (Ok residents).

Definition create_resident_task (uuid4 : string) (resident : ResidentCreate.t)
    : task Resident.t :=
  let resident_obj := Resident.mk uuid4 (ResidentCreate.name resident) in
  _ <~ insert_one db_residents resident_obj ;;
  Return (Ok resident_obj).

Definition update_resident_task (resident_id : string)
    (resident_update : ResidentUpdate.t) : task Resident.t :=
  resident <~ find_one db_residents (resident_id_is resident_id) ;;
  if negb (found resident)
  then Return (HTTPException 404 "Resident not found")
  else
    _ <~ update_one db_residents (resident_id_is resident_id)
           (fun r => Resident.mk (Resident.id r)
                       (ResidentUpdate.name resident_update)) ;;
    updated_resident <~ find_one db_residents (resident_id_is resident_id) ;;
    refreshed_task updated_resident.

Definition delete_resident_task (resident_id : string) : task string :=
  deleted_count <~ delete_one db_residents (resident_id_is resident_id) ;;
  if deleted_count =? 0
  then Return (HTTPException 404 "Resident not found")
  else
    _ <~ delete_many db_items (item_residentId_is resident_id) ;;
    Return (Ok "Resident and associated items deleted successfully").

Definition get_items_task (resident_id : option string) : task (list Item.t) :=
  let filter_dict :=
    match resident_id with
    | Some r => if truthy resident_id then item_residentId_is r else no_filter
    | None => no_filter
    end in
  items <~ find_to_list db_items filter_dict 1000 ;;
  Return (Ok items).

Definition create_item_task (uuid4 : string) (item : ItemCreate.t)
    : task Item.t :=
  let item_obj := Item_of_ItemCreate uuid4 item in
  _ <~ insert_one db_items item_obj ;;
  Return (Ok item_obj).

Definition update_item_task (item_id : string) (item_update : ItemUpdate.t)
    : task Item.t :=
  item <~ find_one db_items (item_id_is item_id) ;;
  if negb (found item)
  then Return (HTTPException 404 "Item not found")
  else
    _ <~ update_one db_items (item_id_is item_id)
           (dollar_set (update_dict item_update)) ;;
    updated_item <~ find_one db_items (item_id_is item_id) ;;
    refreshed_task updated_item.

Definition delete_item_task (item_id : string) : task string :=
  deleted_count <~ delete_one db_items (item_id_is item_id) ;;
  if deleted_count =? 0
  then Return (HTTPException 404 "Item not found")
  else Return (Ok "Item deleted successfully").

Definition add_purchase_task (today : string) (item_id : string)
    (purchase : PurchaseCreate.t) : task Item.t :=
  item <~ find_one db_items (item_id_is item_id) ;;
  if negb (found item)
  then Return (HTTPException 404 "Item not found")
  else
    let new_purchase :=
      Purchase.mk today (PurchaseCreate.qty purchase)
                  (PurchaseCreate.price purchase) in
    _ <~ update_one db_items (item_id_is item_id)
           (fun d => push_purchases new_purchase
                       (inc_quantity (PurchaseCreate.qty purchase) d)) ;;
    updated_item <~ find_one db_items (item_id_is item_id) ;;
    refreshed_task updated_item.

Definition add_usage_task (today : string) (item_id : string)
    (usage : UsageCreate.t) : task Item.t :=
  item <~ find_one db_items (item_id_is item_id) ;;
  match item with
  | None => Return (HTTPException 404 "Item not found")
  | Some it =>
      if Item.quantity it <? UsageCreate.qty usage
      then Return (HTTPException 400 "Not enough quantity in stock")
      else
        let new_usage := UsageHistory.mk today (UsageCreate.qty usage) in
        _ <~ update_one db_items (item_id_is item_id)
               (fun d => push_usageHistory new_usage
                           (inc_used (UsageCreate.qty usage)
                              (inc_quantity (- UsageCreate.qty usage) d))) ;;
        updated_item <~ find_one db_items (item_id_is item_id) ;;
        refreshed_task updated_item
  end.

Definition adjust_quantity_task (item_id : string) (delta : Z) : task Item.t :=
  item <~ find_one db_items (item_id_is item_id) ;;
  match item with
  | None => Return (HTTPException 404 "Item not found")
  | Some it =>
      let new_quantity := Z.max 0 (Item.quantity it + delta) in
      _ <~ update_one db_items (item_id_is item_id)
             (fun d => set_field d (F_quantity new_quantity)) ;;
      updated_item <~ find_one db_items (item_id_is item_id) ;;
      refreshed_task updated_item
  end.

Fixpoint respond_task {A : Type} (wrap : A -> response) (t : task A)
    : task response :=
  match t with
  | Return (Ok a) => Return (Ok (wrap a))
  | Return (HTTPException sc d) => Return (HTTPException sc d)
  | Await call k => Await call (fun x => respond_task wrap (k x))
  end.

Definition serve_task (rq : request) : task response :=
  match rq with
  | GET_root => respond_task R_message root_task
  | POST_status u now input =>
      respond_task R_status (create_status_check_task u now input)
  | GET_status => respond_task R_statuses get_status_checks_task
  | GET_residents => respond_task R_residents get_residents_task
  | POST_residents u r => respond_task R_resident (create_resident_task u r)
  | PUT_residents rid ru => respond_task R_resident (update_resident_task rid ru)
  | DELETE_residents rid => respond_task R_message (delete_resident_task rid)
  | GET_items rid => respond_task R_items (get_items_task rid)
  | POST_items u b =>
      respond_task R_item (create_item_task u (ItemCreate.parse b))
  | PUT_items iid iu => respond_task R_item (update_item_task iid iu)
  | DELETE_items iid => respond_task R_message (delete_item_task iid)
  | POST_purchase today iid p =>
      respond_task R_item (add_purchase_task today iid p)
  | POST_usage today iid u => respond_task R_item (add_usage_task today iid u)
  | POST_adjust_quantity iid delta =>
      respond_task R_item (adjust_quantity_task iid delta)
  end.

(** What the other requests did to the database since the task's last
    storage call: the head of [others], nothing when the list is empty. *)
Definition interfere (others : list (DB -> DB)) (db : DB) : DB :=
  match others with
  | e :: _ => e db
  | [] => db
  end.

(** A task run among other requests: before each of its storage calls
    the database is what the others have made of it.  The result is the
    task's answer, the database after its last call, and for each of its
    calls the database just before and just after. *)
Fixpoint run_among {A : Type} (t : task A) (others : list (DB -> DB))
    (db : DB) : result A * DB * list (DB * DB) :=
  match t with
  | Return r => (r, db, [])
  | Await call k =>
      let before := interfere others db in
      match call before with
      | (Ok x, db1) =>
          let rest := run_among (k x) (tl others) db1 in
          (fst (fst rest), snd (fst rest), (before, db1) :: snd rest)
      | (HTTPException sc d, db1) =>
          (HTTPException sc d, db1, [(before, db1)])
      end
  end.

(** Two tasks sharing the database: one storage call of a task is one
    turn; [true] gives the turn to the first task, [false] to the
    second. *)
Definition turn {A : Type} (t : task A) (db : DB) : task A * DB :=
  match t with
  | Return r => (Return r, db)
  | Await call k =>
      match call db with
      | (Ok x, db1) => (k x, db1)
      | (HTTPException sc d, db1) => (Return (HTTPException sc d), db1)
      end
  end.

Fixpoint interleave {A B : Type} (turns : list bool) (t1 : task A)
    (t2 : task B) (db : DB) : task A * task B * DB :=
  match turns with
  | [] => (t1, t2, db)
  | true :: turns' =>
      let (t1', db1) := turn t1 db in interleave turns' t1' t2 db1
  | false :: turns' =>
      let (t2', db1) := turn t2 db in interleave turns' t1 t2' db1
  end.

(** ** When a request keeps quantities at or above zero *)

(** The condition for a request served alone: the quantity a creation
    stores, the quantity an update stores on the item it finds, the
    quantity a purchase leaves on the item it finds, is at least zero.
    Usage, adjustment and the other routes need no condition. *)
Definition keeps_quantity_nonneg (rq : request) (db : DB) : bool :=
  match rq with
  | POST_items _ b => 0 <=? ItemCreate.quantity (ItemCreate.parse b)
  | PUT_items iid iu =>
      match find (item_id_is iid) (items db), ItemUpdate.quantity iu with
      | Some _, Some q => 0 <=? q
      | _, _ => true
      end
  | POST_purchase _ iid p =>
      match find (item_id_is iid) (items db) with
      | Some it => 0 <=? Item.quantity it + PurchaseCreate.qty p
      | None => true
      end
  | _ => true
  end.

(** The condition at the time of a storage call of the request's task:
    as above, and for a usage that the item it finds still has the qty in
    stock. *)
Definition call_keeps_quantity_nonneg (rq : request) (db : DB) : bool :=
  match rq with
  | POST_usage _ iid u =>
      match find (item_id_is iid) (items db) with
      | Some it => UsageCreate.qty u <=? Item.quantity it
      | None => true
      end
  | _ => keeps_quantity_nonneg rq db
  end.

(** Every request of a run meets the condition in the state it is served
    in. *)
Fixpoint all_keep_quantity_nonneg (rqs : list request) (db : DB) : bool :=
  match rqs with
  | [] => true
  | rq :: rqs' =>
      keeps_quantity_nonneg rq db && all_keep_quantity_nonneg rqs' (after rq db)
  end.

(** An item whose stored quantity is below zero. *)
Definition overdrawn : Item.t :=
  Item.mk "i4" "r1" "gloves" (-4) 9 2 default_source [] [].

Definition overdrawn_DB : DB :=
  mk_DB [] [Resident.mk "r1" "Sato"] [overdrawn].

(** One item with one unit in stock. *)
Definition last_unit_DB : DB :=
  mk_DB [] [Resident.mk "r1" "Sato"]
        [Item.mk "i1" "r1" "soap" 1 0 5 default_source [] []].

(** The exceptions the handlers raise themselves. *)
Definition raised_by_handler (rq : request) (sc : Z) (detail : string) : Prop :=
  (sc = 404 /\ detail = "Resident not found")
  \/ (sc = 404 /\ detail = "Item not found")
  \/ (sc = 400 /\ detail = "Not enough quantity in stock"
      /\ exists today iid u, rq = POST_usage today iid u).

(** ** Facts about first-match updates and deletions *)

Section DocumentFacts.
Context {A : Type}.
Variable flt : A -> bool.

Lemma find_split (l : list A) (d : A) :
  find flt l = Some d ->
  exists before rest,
    l = before ++ d :: rest
    /\ Forall (fun x => flt x = false) before
    /\ flt d = true.
Proof.
  induction l as [|x l IH]; simpl; [discriminate|].
  destruct (flt x) eqn:Hx; intros H.
  - injection H as <-. exists [], l. auto.
  - destruct (IH H) as (b & r & -> & Hb & Hd).
    exists (x :: b), r. auto.
Qed.

Lemma find_middle (before rest : list A) (d : A) :
  Forall (fun x => flt x = false) before ->
  flt d = true ->
  find flt (before ++ d :: rest) = Some d.
Proof.
  induction 1 as [|x b Hx _ IH]; simpl; intros Hd.
  - now rewrite Hd.
  - rewrite Hx. auto.
Qed.

Lemma update_first_middle (u : A -> A) (before rest : list A) (d : A) :
  Forall (fun x => flt x = false) before ->
  flt d = true ->
  update_first flt u (before ++ d :: rest) = before ++ u d :: rest.
Proof.
  induction 1 as [|x b Hx _ IH]; simpl; intros Hd.
  - now rewrite Hd.
  - rewrite Hx. f_equal. auto.
Qed.

Lemma delete_first_middle (before rest : list A) (d : A) :
  Forall (fun x => flt x = false) before ->
  flt d = true ->
  delete_first flt (before ++ d :: rest) = before ++ rest.
Proof.
  induction 1 as [|x b Hx _ IH]; simpl; intros Hd.
  - now rewrite Hd.
  - rewrite Hx. f_equal. auto.
Qed.

Lemma existsb_found (l : list A) : existsb flt l = found (find flt l).
Proof.
  induction l as [|x l IH]; simpl; [reflexivity|].
  destruct (flt x); simpl; auto.
Qed.

Lemma delete_first_absent (l : list A) :
  find flt l = None -> delete_first flt l = l.
Proof.
  induction l as [|x l IH]; simpl; [reflexivity|].
  destruct (flt x); [discriminate|]. intros H. f_equal. auto.
Qed.

Lemma update_first_In (u : A -> A) (l : list A) (y : A) :
  In y (update_first flt u l) ->
  In y l \/ exists x, find flt l = Some x /\ y = u x.
Proof.
  induction l as [|x l IH]; simpl; [tauto|].
  destruct (flt x) eqn:Hx; simpl.
  - intros [<-|H]; [right; exists x; auto | auto].
  - intros [<-|H]; [auto|].
    destruct (IH H) as [?|(z & ? & ?)]; [auto|].
    right. exists z. auto.
Qed.

Lemma delete_first_In (l : list A) (y : A) :
  In y (delete_first flt l) -> In y l.
Proof.
  induction l as [|x l IH]; simpl; [tauto|].
  destruct (flt x); simpl; intuition.
Qed.
End DocumentFacts.

Lemma item_id_is_true (x : string) (d : Item.t) :
  item_id_is x d = true <-> Item.id d = x.
Proof. unfold item_id_is. apply String.eqb_eq. Qed.

Lemma item_id_is_false (x : string) (d : Item.t) :
  item_id_is x d = false <-> Item.id d <> x.
Proof. unfold item_id_is. apply String.eqb_neq. Qed.

Lemma others_before (x : string) (l : list Item.t) :
  Forall (fun d => item_id_is x d = false) l <->
  Forall (fun d => Item.id d <> x) l.
Proof.
  split; intros H; eapply Forall_impl; try exact H;
    intros d; apply item_id_is_false.
Qed.

Lemma update_and_refresh_spec (item_id : string) (u : Item.t -> Item.t)
    (db : DB) (it : Item.t) :
  find (item_id_is item_id) (items db) = Some it ->
  Item.id (u it) = Item.id it ->
  exists before rest,
    items db = before ++ it :: rest
    /\ Forall (fun d => Item.id d <> item_id) before
    /\ update_and_refresh item_id u db =
       (Ok (u it),
        mk_DB (status_checks db) (residents db) (before ++ u it :: rest)).
Proof.
  intros Hfind Hid.
  destruct (find_split _ _ _ Hfind) as (before & rest & Hl & Hb & Hd).
  exists before, rest. split; [exact Hl|]. split; [now apply others_before|].
  unfold update_and_refresh, bind, update_one, find_one, refreshed, ret.
  cbn [docs with_docs db_items items]. rewrite Hl.
  rewrite update_first_middle by assumption.
  rewrite find_middle; [reflexivity | assumption |].
  apply item_id_is_true. rewrite Hid. now apply item_id_is_true.
Qed.

(** ** Usage recording *)

(** C1. When the item with the given id is in storage with quantity [q]
    and the request has [qty <= q], [add_usage] succeeds: the stored item's
    quantity goes down by [qty], its used counter goes up by [qty], one
    [UsageHistory] record with today's date and that [qty] is appended to
    [usageHistory], nothing else in the database changes, and the updated
    item is returned. *)
Theorem add_usage_records_usage (today item_id : string)
    (usage : UsageCreate.t) (db : DB) (it : Item.t) :
  find (item_id_is item_id) (items db) = Some it ->
  UsageCreate.qty usage <= Item.quantity it ->
  exists before rest,
    items db = before ++ it :: rest
    /\ Forall (fun d => Item.id d <> item_id) before
    /\ add_usage today item_id usage db =
       (Ok (used_item today (UsageCreate.qty usage) it),
        mk_DB (status_checks db) (residents db)
              (before ++ used_item today (UsageCreate.qty usage) it :: rest)).
Proof.
  intros Hfind Hle.
  set (u := fun d => push_usageHistory
                       (UsageHistory.mk today (UsageCreate.qty usage))
                       (inc_used (UsageCreate.qty usage)
                          (inc_quantity (- UsageCreate.qty usage) d))).
  destruct (update_and_refresh_spec item_id u db it Hfind eq_refl)
    as (before & rest & Hl & Hb & Hrun).
  exists before, rest. split; [exact Hl|]. split; [exact Hb|].
  unfold add_usage, bind at 1. unfold find_one at 1.
  cbn [docs db_items]. rewrite Hfind.
  destruct (Z.ltb_spec (Item.quantity it) (UsageCreate.qty usage)) as [Hlt|_];
    [lia|].
  exact Hrun.
Qed.

Lemma add_usage_records_usage_witness :
  find (item_id_is "i1") (items sample_DB) = Some soap
  /\ UsageCreate.qty (UsageCreate.mk 2) <= Item.quantity soap
  /\ exists before rest,
       items sample_DB = before ++ soap :: rest
       /\ Forall (fun d => Item.id d <> "i1") before
       /\ add_usage "2024-05-01" "i1" (UsageCreate.mk 2) sample_DB =
          (Ok (used_item "2024-05-01" 2 soap),
           mk_DB (status_checks sample_DB) (residents sample_DB)
                 (before ++ used_item "2024-05-01" 2 soap :: rest)).
Proof.
  split; [reflexivity|]. split; [simpl; lia|].
  apply (add_usage_records_usage "2024-05-01" "i1" (UsageCreate.mk 2)
           sample_DB soap); [reflexivity | simpl; lia].
Defined.

(** C2. When the item with the given id is in storage, [add_usage] raises
    the 400 error with detail "Not enough quantity in stock" exactly when
    the requested [qty] is strictly greater than the item's quantity; the
    database (hence the item's quantity, used, purchases and usageHistory)
    is then unchanged; and no other error can come out of the handler for
    a stored item. *)
Theorem add_usage_insufficient_stock (today item_id : string)
    (usage : UsageCreate.t) (db : DB) (it : Item.t) :
  find (item_id_is item_id) (items db) = Some it ->
  (Item.quantity it < UsageCreate.qty usage <->
   add_usage today item_id usage db =
   (HTTPException 400 "Not enough quantity in stock", db))
  /\ (forall sc detail db',
        add_usage today item_id usage db = (HTTPException sc detail, db') ->
        Item.quantity it < UsageCreate.qty usage).
Proof.
  intros Hfind.
  set (u := fun d => push_usageHistory
                       (UsageHistory.mk today (UsageCreate.qty usage))
                       (inc_used (UsageCreate.qty usage)
                          (inc_quantity (- UsageCreate.qty usage) d))).
  destruct (update_and_refresh_spec item_id u db it Hfind eq_refl)
    as (before & rest & _ & _ & Hrun).
  assert (Hrej : Item.quantity it < UsageCreate.qty usage ->
                 add_usage today item_id usage db =
                 (HTTPException 400 "Not enough quantity in stock", db)).
  { intros Hlt. unfold add_usage, bind, find_one. cbn [docs db_items].
    rewrite Hfind.
    destruct (Z.ltb_spec (Item.quantity it) (UsageCreate.qty usage));
      [reflexivity | lia]. }
  assert (Hacc : UsageCreate.qty usage <= Item.quantity it ->
                 exists r db', add_usage today item_id usage db = (Ok r, db')).
  { intros Hle. eexists _, _.
    unfold add_usage, bind at 1. unfold find_one at 1.
    cbn [docs db_items]. rewrite Hfind.
    destruct (Z.ltb_spec (Item.quantity it) (UsageCreate.qty usage));
      [lia | exact Hrun]. }
  split; [split; [exact Hrej|] |].
  - intros Herr.
    destruct (Z.lt_ge_cases (Item.quantity it) (UsageCreate.qty usage))
      as [Hlt|Hle]; [exact Hlt|].
    destruct (Hacc Hle) as (r & db' & Heq). congruence.
  - intros sc detail db' Herr.
    destruct (Z.lt_ge_cases (Item.quantity it) (UsageCreate.qty usage))
      as [Hlt|Hle]; [exact Hlt|].
    destruct (Hacc Hle) as (r & db'' & Heq). congruence.
Qed.

Lemma add_usage_insufficient_stock_witness :
  find (item_id_is "i1") (items sample_DB) = Some soap
  /\ add_usage "2024-05-01" "i1" (UsageCreate.mk 1000) sample_DB =
     (HTTPException 400 "Not enough quantity in stock", sample_DB).
Proof.
  split; [reflexivity|].
  apply (add_usage_insufficient_stock "2024-05-01" "i1" (UsageCreate.mk 1000)
           sample_DB soap eq_refl).
  simpl. lia.
Defined.

(** ** Quantity adjustment *)

(** C3. When the item with the given id is in storage with quantity [q],
    [adjust_quantity] with any integer [delta] stores [max 0 (q + delta)]
    as the item's quantity and returns the updated item; every other field
    of the item, both history sequences included, and every other document
    are unchanged. *)
Theorem adjust_quantity_clamps (item_id : string) (delta : Z)
    (db : DB) (it : Item.t) :
  find (item_id_is item_id) (items db) = Some it ->
  exists before rest,
    items db = before ++ it :: rest
    /\ Forall (fun d => Item.id d <> item_id) before
    /\ adjust_quantity item_id delta db =
       (Ok (adjusted_item delta it),
        mk_DB (status_checks db) (residents db)
              (before ++ adjusted_item delta it :: rest)).
Proof.
  intros Hfind.
  set (u := fun d : Item.t =>
              set_field d (F_quantity (Z.max 0 (Item.quantity it + delta)))).
  destruct (update_and_refresh_spec item_id u db it Hfind eq_refl)
    as (before & rest & Hl & Hb & Hrun).
  exists before, rest. split; [exact Hl|]. split; [exact Hb|].
  unfold adjust_quantity, bind at 1. unfold find_one at 1.
  cbn [docs db_items]. rewrite Hfind. exact Hrun.
Qed.

Lemma adjust_quantity_clamps_witness :
  find (item_id_is "i2") (items sample_DB) = Some towel
  /\ exists before rest,
       items sample_DB = before ++ towel :: rest
       /\ Forall (fun d => Item.id d <> "i2") before
       /\ adjust_quantity "i2" (-7) sample_DB =
          (Ok (adjusted_item (-7) towel),
           mk_DB (status_checks sample_DB) (residents sample_DB)
                 (before ++ adjusted_item (-7) towel :: rest)).
Proof.
  split; [reflexivity|].
  apply (adjust_quantity_clamps "i2" (-7) sample_DB towel eq_refl).
Defined.

(** ** Purchase recording *)

(** C4. When the item with the given id is in storage, [add_purchase]
    with any integer [qty] (zero and negative included) and any [price]
    adds [qty] to the item's quantity, appends one [Purchase] record with
    today's date, that [qty] and that [price] to [purchases], changes
    nothing else, and returns the updated item. *)
Theorem add_purchase_records_purchase (today item_id : string)
    (purchase : PurchaseCreate.t) (db : DB) (it : Item.t) :
  find (item_id_is item_id) (items db) = Some it ->
  exists before rest,
    items db = before ++ it :: rest
    /\ Forall (fun d => Item.id d <> item_id) before
    /\ add_purchase today item_id purchase db =
       (Ok (purchased_item today (PurchaseCreate.qty purchase)
              (PurchaseCreate.price purchase) it),
        mk_DB (status_checks db) (residents db)
              (before ++ purchased_item today (PurchaseCreate.qty purchase)
                           (PurchaseCreate.price purchase) it :: rest)).
Proof.
  intros Hfind.
  set (u := fun d => push_purchases
                       (Purchase.mk today (PurchaseCreate.qty purchase)
                                    (PurchaseCreate.price purchase))
                       (inc_quantity (PurchaseCreate.qty purchase) d)).
  destruct (update_and_refresh_spec item_id u db it Hfind eq_refl)
    as (before & rest & Hl & Hb & Hrun).
  exists before, rest. split; [exact Hl|]. split; [exact Hb|].
  unfold add_purchase, bind at 1. unfold find_one at 1.
  cbn [docs db_items]. rewrite Hfind. exact Hrun.
Qed.

Lemma add_purchase_records_purchase_witness :
  find (item_id_is "i2") (items sample_DB) = Some towel
  /\ exists before rest,
       items sample_DB = before ++ towel :: rest
       /\ Forall (fun d => Item.id d <> "i2") before
       /\ add_purchase "2024-05-01" "i2" (PurchaseCreate.mk (-5) 100%float)
            sample_DB =
          (Ok (purchased_item "2024-05-01" (-5) 100%float towel),
           mk_DB (status_checks sample_DB) (residents sample_DB)
                 (before ++ purchased_item "2024-05-01" (-5) 100%float towel
                    :: rest)).
Proof.
  split; [reflexivity|].
  apply (add_purchase_records_purchase "2024-05-01" "i2"
           (PurchaseCreate.mk (-5) 100%float) sample_DB towel eq_refl).
Defined.

(** ** Resident deletion *)

Lemma with_same_residents (db : DB) :
  mk_DB (status_checks db) (residents db) (items db) = db.
Proof. now destruct db. Qed.

(** C5. [delete_resident] raises 404 "Resident not found", leaving the
    database as it was, when no resident has the id.  Otherwise it removes
    the (first) resident record with the id and every item whose
    [residentId] is the id, keeps every other resident and every other
    item, in their order, and returns the confirmation message. *)
Theorem delete_resident_cascades (resident_id : string) (db : DB) :
  match find (resident_id_is resident_id) (residents db) with
  | None =>
      delete_resident resident_id db =
      (HTTPException 404 "Resident not found", db)
  | Some r =>
      exists before rest,
        residents db = before ++ r :: rest
        /\ Forall (fun d => Resident.id d <> resident_id) before
        /\ Resident.id r = resident_id
        /\ delete_resident resident_id db =
           (Ok "Resident and associated items deleted successfully",
            mk_DB (status_checks db) (before ++ rest)
                  (filter (fun it => negb (String.eqb (Item.residentId it) resident_id))
                          (items db)))
        /\ (forall it,
              In it (items (snd (delete_resident resident_id db))) <->
              In it (items db) /\ Item.residentId it <> resident_id)
  end.
Proof.
  destruct (find (resident_id_is resident_id) (residents db)) as [r|] eqn:Hfind.
  - destruct (find_split _ _ _ Hfind) as (before & rest & Hl & Hb & Hr).
    assert (Hrun : delete_resident resident_id db =
              (Ok "Resident and associated items deleted successfully",
               mk_DB (status_checks db) (before ++ rest)
                 (filter (fun it => negb (String.eqb (Item.residentId it) resident_id))
                         (items db)))).
    { unfold delete_resident, bind, delete_one, delete_many, ret.
      cbn [docs with_docs db_residents db_items residents items status_checks].
      rewrite existsb_found, Hfind. cbn [found Z.eqb].
      rewrite Hl, delete_first_middle by assumption. reflexivity. }
    exists before, rest. split; [exact Hl|]. split.
    { eapply Forall_impl; [|exact Hb]. intros d. apply String.eqb_neq. }
    split; [now apply String.eqb_eq|]. split; [exact Hrun|].
    intros it. rewrite Hrun. cbn [snd items].
    rewrite filter_In, negb_true_iff, String.eqb_neq. reflexivity.
  - unfold delete_resident, bind, delete_one, raise.
    cbn [docs with_docs db_residents residents items status_checks].
    rewrite existsb_found, Hfind. cbn [found Z.eqb].
    rewrite delete_first_absent by assumption.
    now rewrite with_same_residents.
Qed.

Example delete_resident_sample :
  delete_resident "r1" sample_DB =
  (Ok "Resident and associated items deleted successfully",
   mk_DB [] [Resident.mk "r2" "Tanaka"] [towel]).
Proof. reflexivity. Qed.

Example delete_resident_unknown :
  delete_resident "r9" sample_DB =
  (HTTPException 404 "Resident not found", sample_DB).
Proof. reflexivity. Qed.

(** ** Item update *)

Lemma dollar_set_update_dict (item_update : ItemUpdate.t) (it : Item.t) :
  dollar_set (update_dict item_update) it = updated_item item_update it.
Proof.
  destruct item_update as [[n|] [q|] [u|] [m|] [s|]], it; reflexivity.
Qed.

(** C7. [update_item] raises 404 "Item not found", leaving the database
    as it was, when no item has the id.  Otherwise it stores and returns
    the item in which each of name, quantity, used, min and source is the
    value given in the request when one is given and the old value when
    none is; id, residentId, purchases, usageHistory and every other
    document are unchanged. *)
Theorem update_item_partial (item_id : string) (item_update : ItemUpdate.t)
    (db : DB) :
  match find (item_id_is item_id) (items db) with
  | None =>
      update_item item_id item_update db =
      (HTTPException 404 "Item not found", db)
  | Some it =>
      exists before rest it',
        items db = before ++ it :: rest
        /\ Forall (fun d => Item.id d <> item_id) before
        /\ update_item item_id item_update db =
           (Ok it',
            mk_DB (status_checks db) (residents db) (before ++ it' :: rest))
        /\ Item.name it' =
           match ItemUpdate.name item_update with
           | Some v => v | None => Item.name it end
        /\ Item.quantity it' =
           match ItemUpdate.quantity item_update with
           | Some v => v | None => Item.quantity it end
        /\ Item.used it' =
           match ItemUpdate.used item_update with
           | Some v => v | None => Item.used it end
        /\ Item.min it' =
           match ItemUpdate.min item_update with
           | Some v => v | None => Item.min it end
        /\ Item.source it' =
           match ItemUpdate.source item_update with
           | Some v => v | None => Item.source it end
        /\ Item.id it' = Item.id it
        /\ Item.residentId it' = Item.residentId it
        /\ Item.purchases it' = Item.purchases it
        /\ Item.usageHistory it' = Item.usageHistory it
  end.
Proof.
  destruct (find (item_id_is item_id) (items db)) as [it|] eqn:Hfind.
  - assert (Hid : Item.id (dollar_set (update_dict item_update) it) = Item.id it)
      by now rewrite dollar_set_update_dict.
    destruct (update_and_refresh_spec item_id _ db it Hfind Hid)
      as (before & rest & Hl & Hb & Hrun).
    rewrite dollar_set_update_dict in Hrun.
    exists before, rest, (updated_item item_update it).
    split; [exact Hl|]. split; [exact Hb|]. split.
    { unfold update_item, bind at 1. unfold find_one at 1.
      cbn [docs db_items]. rewrite Hfind. exact Hrun. }
    cbn. repeat split; reflexivity.
  - unfold update_item, bind, find_one, raise. cbn [docs db_items].
    now rewrite Hfind.
Qed.

Example update_item_sample :
  update_item "i1" (ItemUpdate.mk (Some "Updated Item Name") None None (Some 8) None)
    sample_DB =
  (Ok (Item.mk "i1" "r1" "Updated Item Name" 15 0 8 default_source [] []),
   mk_DB [] (residents sample_DB)
         [Item.mk "i1" "r1" "Updated Item Name" 15 0 8 default_source [] [];
          towel]).
Proof. reflexivity. Qed.

(** ** Item creation *)

Lemma create_item_run (uuid4 : string) (item : ItemCreate.t) (db : DB) :
  create_item uuid4 item db =
  (Ok (Item_of_ItemCreate uuid4 item),
   mk_DB (status_checks db) (residents db)
         (items db ++ [Item_of_ItemCreate uuid4 item])).
Proof. reflexivity. Qed.

(** C8, as stated, fails: a creation request without a source key yields
    an item whose source is not the string "purchased". *)
Lemma create_item_source_not_purchased :
  ItemCreate.b_source minimal_body = None
  /\ exists it db',
       create_item "u1" (ItemCreate.parse minimal_body) empty_DB = (Ok it, db')
       /\ Item.source it <> "purchased".
Proof.
  split; [reflexivity|].
  eexists _, _. split; [reflexivity|]. discriminate.
Qed.

(** C8, amended.  For every creation request that omits the source key,
    the item that is stored and returned has the source "購入" (the
    default written in [ItemCreate] and [Item]). *)
Theorem create_item_default_source (uuid4 : string) (b : ItemCreate.body)
    (db : DB) :
  ItemCreate.b_source b = None ->
  exists it,
    create_item uuid4 (ItemCreate.parse b) db =
    (Ok it, mk_DB (status_checks db) (residents db) (items db ++ [it]))
    /\ Item.source it = "購入".
Proof.
  intros Hsrc. eexists. split; [apply create_item_run|].
  cbn. now rewrite Hsrc.
Qed.

Lemma create_item_default_source_witness :
  ItemCreate.b_source minimal_body = None
  /\ exists it,
       create_item "u1" (ItemCreate.parse minimal_body) sample_DB =
       (Ok it,
        mk_DB (status_checks sample_DB) (residents sample_DB)
              (items sample_DB ++ [it]))
       /\ Item.source it = "購入".
Proof.
  split; [reflexivity|].
  apply (create_item_default_source "u1" minimal_body sample_DB eq_refl).
Defined.

(** ** Item listing *)

Lemma filter_no_filter {A : Type} (l : list A) : filter no_filter l = l.
Proof.
  induction l as [|x l IH]; simpl; [reflexivity | now rewrite IH].
Qed.

(** C10. [get_items] with the empty string as [resident_id] answers as
    it does with no [resident_id]: the first 1000 items of the
    collection, whatever their [residentId]. *)
Theorem get_items_empty_string_is_no_filter (db : DB) :
  get_items (Some "") db = get_items None db
  /\ get_items (Some "") db = (Ok (firstn 1000 (items db)), db).
Proof.
  unfold get_items, find_to_list. cbn [truthy String.eqb negb docs db_items].
  now rewrite filter_no_filter.
Qed.

(** The answer is not the list of items whose [residentId] is the empty
    string. *)
Example get_items_empty_string_sample :
  get_items (Some "") sample_DB = (Ok [soap; towel], sample_DB)
  /\ filter (item_residentId_is "") (items sample_DB) = [].
Proof. split; reflexivity. Qed.

Example get_items_by_resident_sample :
  get_items (Some "r2") sample_DB = (Ok [towel], sample_DB).
Proof. reflexivity. Qed.

(** ** The items a request leaves behind *)

Lemma Forall_update_first {A : Type} (P : A -> Prop) (flt : A -> bool)
    (u : A -> A) (l : list A) :
  Forall P l ->
  (forall x, find flt l = Some x -> P (u x)) ->
  Forall P (update_first flt u l).
Proof.
  intros Hl Hu. apply Forall_forall. intros y Hy.
  destruct (update_first_In flt u l y Hy) as [Hin|(x & Hx & ->)].
  - rewrite Forall_forall in Hl. now apply Hl.
  - auto.
Qed.

Lemma Forall_delete_first {A : Type} (P : A -> Prop) (flt : A -> bool)
    (l : list A) :
  Forall P l -> Forall P (delete_first flt l).
Proof.
  intros Hl. apply Forall_forall. intros y Hy.
  apply delete_first_In in Hy. rewrite Forall_forall in Hl. now apply Hl.
Qed.

Lemma Forall_delete_all {A : Type} (P : A -> Prop) (flt : A -> bool)
    (l : list A) :
  Forall P l -> Forall P (delete_all flt l).
Proof.
  intros Hl. apply Forall_forall. intros y Hy.
  apply filter_In in Hy. destruct Hy as [Hy _].
  rewrite Forall_forall in Hl. now apply Hl.
Qed.

(** A property of items that the five writers of the [items] collection
    establish on what they write holds of every item after any request. *)
Lemma after_Forall (P : Item.t -> Prop) (rq : request) (db : DB) :
  Forall P (items db) ->
  (forall u b, rq = POST_items u b ->
     P (Item_of_ItemCreate u (ItemCreate.parse b))) ->
  (forall iid iu it, rq = PUT_items iid iu ->
     find (item_id_is iid) (items db) = Some it ->
     P (updated_item iu it)) ->
  (forall today iid p it, rq = POST_purchase today iid p ->
     find (item_id_is iid) (items db) = Some it ->
     P (purchased_item today (PurchaseCreate.qty p) (PurchaseCreate.price p) it)) ->
  (forall today iid u it, rq = POST_usage today iid u ->
     find (item_id_is iid) (items db) = Some it ->
     UsageCreate.qty u <= Item.quantity it ->
     P (used_item today (UsageCreate.qty u) it)) ->
  (forall iid delta it, rq = POST_adjust_quantity iid delta ->
     find (item_id_is iid) (items db) = Some it ->
     P (adjusted_item delta it)) ->
  Forall P (items (after rq db)).
Proof.
  intros Hdb Hcreate Hupdate Hpurchase Husage Hadjust.
  destruct rq as [ | u now input | | | u r | rid ru | rid | rid | u b
                 | iid iu | iid | today iid p | today iid us | iid delta ].
  - exact Hdb.
  - exact Hdb.
  - exact Hdb.
  - exact Hdb.
  - exact Hdb.
  - run_handler. split_reads; exact Hdb.
  - run_handler. split_reads;
      first [exact Hdb | now apply Forall_delete_all].
  - exact Hdb.
  - run_handler. apply Forall_app. split; [exact Hdb|].
    constructor; [|constructor]. now apply Hcreate.
  - assert (Hw : Forall P (update_first (item_id_is iid)
                             (dollar_set (update_dict iu)) (items db))).
    { apply Forall_update_first; [exact Hdb|]. intros x Hx.
      rewrite dollar_set_update_dict. exact (Hupdate iid iu x eq_refl Hx). }
    run_handler. split_reads; first [exact Hdb | exact Hw].
  - run_handler. split_reads; now apply Forall_delete_first.
  - assert (Hw : Forall P (update_first (item_id_is iid)
                    (fun d => push_purchases
                       (Purchase.mk today (PurchaseCreate.qty p)
                                    (PurchaseCreate.price p))
                       (inc_quantity (PurchaseCreate.qty p) d)) (items db))).
    { apply Forall_update_first; [exact Hdb|]. intros x Hx.
      exact (Hpurchase today iid p x eq_refl Hx). }
    run_handler. split_reads; first [exact Hdb | exact Hw].
  - run_handler.
    destruct (find (item_id_is iid) (items db)) as [it|] eqn:Hfind;
      [|exact Hdb].
    destruct (Z.ltb_spec (Item.quantity it) (UsageCreate.qty us)) as [|Hle];
      [exact Hdb|].
    assert (Hw : Forall P (update_first (item_id_is iid)
                    (fun d => push_usageHistory
                       (UsageHistory.mk today (UsageCreate.qty us))
                       (inc_used (UsageCreate.qty us)
                          (inc_quantity (- UsageCreate.qty us) d)))
                    (items db))).
    { apply Forall_update_first; [exact Hdb|]. intros x Hx.
      assert (x = it) by congruence. subst x.
      exact (Husage today iid us it eq_refl Hfind Hle). }
    split_reads; first [exact Hdb | exact Hw].
  - run_handler.
    destruct (find (item_id_is iid) (items db)) as [it|] eqn:Hfind;
      [|exact Hdb].
    assert (Hw : Forall P (update_first (item_id_is iid)
                    (fun d => set_field d
                       (F_quantity (Z.max 0 (Item.quantity it + delta))))
                    (items db))).
    { apply Forall_update_first; [exact Hdb|]. intros x Hx.
      assert (x = it) by congruence. subst x.
      exact (Hadjust iid delta it eq_refl Hfind). }
    split_reads; first [exact Hdb | exact Hw].
Qed.

(** ** The quantity invariant *)

(** C6, as stated, fails: from the empty database, creating an item and
    then recording a purchase with a negative qty reaches a state with a
    negative quantity; the purchase does not preserve the invariant. *)
Lemma quantity_goes_negative :
  exists db rq,
    reachable db
    /\ quantity_nonneg db
    /\ reachable (after rq db)
    /\ ~ quantity_nonneg (after rq db).
Proof.
  exists (after (POST_items "i1" minimal_body) empty_DB),
         (POST_purchase "2024-05-01" "i1" (PurchaseCreate.mk (-1) 0%float)).
  split; [apply reachable_after, reachable_empty|].
  split; [repeat constructor; discriminate|].
  split; [do 2 apply reachable_after; apply reachable_empty|].
  intros H. inversion H as [|x l Hx Hl]; subst. now apply Hx.
Qed.

Example create_item_negative_quantity :
  items (after (POST_items "i1"
                  (ItemCreate.mk_body "r1" "soap" (Some (-5)) None None None
                     None None None)) empty_DB) =
  [Item.mk "i1" "r1" "soap" (-5) 0 0 default_source [] []].
Proof. reflexivity. Qed.

Example update_item_negative_quantity :
  fst (update_item "i1" (ItemUpdate.mk None (Some (-1)) None None None)
         sample_DB) =
  Ok (Item.mk "i1" "r1" "soap" (-1) 0 5 default_source [] []).
Proof. reflexivity. Qed.

(** ** History sequences *)

Lemma same_or_appended_refl {A : Type} (r : option A) (l : list A) :
  same_or_appended r l l.
Proof. now left. Qed.

Lemma stored_item_origin (rq : request) (db : DB) (iid : string)
    (it it' : Item.t) :
  find (item_id_is iid) (items db) = Some it ->
  Item.id it' = Item.id it ->
  same_or_appended (purchase_of rq) (Item.purchases it) (Item.purchases it') ->
  same_or_appended (usage_of rq) (Item.usageHistory it) (Item.usageHistory it') ->
  history_origin rq db it'.
Proof.
  intros Hfind Hid Hp Hu. right. exists it.
  apply find_some in Hfind. tauto.
Qed.

(** C9. The item [create_item] stores and returns has an empty
    [purchases] and an empty [usageHistory], whatever the request body
    holds; and after any request, every stored item is either such a new
    item or an item stored before, whose [purchases] is as it was unless
    the request is a purchase, which may append its one record, and whose
    [usageHistory] is as it was unless the request is a usage, which may
    append its one record. *)
Theorem histories_only_from_purchase_and_usage :
  (forall uuid4 b db,
     exists it,
       create_item uuid4 (ItemCreate.parse b) db =
       (Ok it, mk_DB (status_checks db) (residents db) (items db ++ [it]))
       /\ Item.purchases it = []
       /\ Item.usageHistory it = [])
  /\ (forall rq db, Forall (history_origin rq db) (items (after rq db))).
Proof.
  split.
  - intros uuid4 b db. eexists. split; [apply create_item_run|].
    split; reflexivity.
  - intros rq db. apply after_Forall.
    + apply Forall_forall. intros it Hit. right. exists it.
      repeat split; [exact Hit | apply same_or_appended_refl..].
    + intros u b ->. left. split; [now exists u, b|]. split; reflexivity.
    + intros iid iu it -> Hfind.
      apply (stored_item_origin _ _ iid it); [exact Hfind | reflexivity | |];
        apply same_or_appended_refl.
    + intros today iid p it -> Hfind.
      apply (stored_item_origin _ _ iid it); [exact Hfind | reflexivity | |].
      * right. eexists. split; reflexivity.
      * apply same_or_appended_refl.
    + intros today iid u it -> Hfind _.
      apply (stored_item_origin _ _ iid it); [exact Hfind | reflexivity | |].
      * apply same_or_appended_refl.
      * right. eexists. split; reflexivity.
    + intros iid delta it -> Hfind.
      apply (stored_item_origin _ _ iid it); [exact Hfind | reflexivity | |];
        apply same_or_appended_refl.
Qed.

Example create_item_ignores_supplied_histories :
  create_item "u1" (ItemCreate.parse body_with_histories) empty_DB =
  (Ok (Item.mk "u1" "r1" "soap" 4 0 0 default_source [] []),
   mk_DB [] [] [Item.mk "u1" "r1" "soap" 4 0 0 default_source [] []]).
Proof. reflexivity. Qed.

(** * Further properties of the handlers *)

(** ** Resident update, item deletion, unknown item ids *)

Lemma with_same_items (db : DB) :
  mk_DB (status_checks db) (residents db) (items db) = db.
Proof. now destruct db. Qed.

(** [update_resident] raises 404 "Resident not found", leaving the
    database as it was, when no resident has the id.  Otherwise the first
    resident with the id gets the new name and keeps its id, every other
    document is unchanged, and the renamed resident is returned. *)
Theorem update_resident_renames (resident_id : string)
    (resident_update : ResidentUpdate.t) (db : DB) :
  match find (resident_id_is resident_id) (residents db) with
  | None =>
      update_resident resident_id resident_update db =
      (HTTPException 404 "Resident not found", db)
  | Some r =>
      exists before rest,
        residents db = before ++ r :: rest
        /\ Forall (fun d => Resident.id d <> resident_id) before
        /\ update_resident resident_id resident_update db =
           (Ok (Resident.mk (Resident.id r) (ResidentUpdate.name resident_update)),
            mk_DB (status_checks db)
                  (before
                   ++ Resident.mk (Resident.id r)
                        (ResidentUpdate.name resident_update) :: rest)
                  (items db))
  end.
Proof.
  destruct (find (resident_id_is resident_id) (residents db)) as [r|] eqn:Hfind.
  - destruct (find_split _ _ _ Hfind) as (before & rest & Hl & Hb & Hr).
    exists before, rest. split; [exact Hl|]. split.
    { eapply Forall_impl; [|exact Hb]. intros d. apply String.eqb_neq. }
    unfold update_resident, bind, find_one, update_one, refreshed, ret.
    cbn [docs with_docs db_residents residents items status_checks].
    rewrite Hfind. cbn [found negb].
    rewrite Hl, update_first_middle by assumption.
    rewrite find_middle; [reflexivity | assumption | exact Hr].
  - unfold update_resident, bind, find_one, raise.
    cbn [docs db_residents]. now rewrite Hfind.
Qed.

(** [delete_item] raises 404 "Item not found", leaving the database as it
    was, when no item has the id.  Otherwise it removes the first item
    with the id, keeps every other item in order, leaves the residents
    alone (the owner included), and returns the confirmation message. *)
Theorem delete_item_removes (item_id : string) (db : DB) :
  match find (item_id_is item_id) (items db) with
  | None =>
      delete_item item_id db = (HTTPException 404 "Item not found", db)
  | Some it =>
      exists before rest,
        items db = before ++ it :: rest
        /\ Forall (fun d => Item.id d <> item_id) before
        /\ delete_item item_id db =
           (Ok "Item deleted successfully",
            mk_DB (status_checks db) (residents db) (before ++ rest))
  end.
Proof.
  destruct (find (item_id_is item_id) (items db)) as [it|] eqn:Hfind.
  - destruct (find_split _ _ _ Hfind) as (before & rest & Hl & Hb & Hit).
    exists before, rest. split; [exact Hl|].
    split; [now apply others_before|].
    unfold delete_item, bind, delete_one, ret.
    cbn [docs with_docs db_items residents items status_checks].
    rewrite existsb_found, Hfind. cbn [found Z.eqb].
    now rewrite Hl, delete_first_middle by assumption.
  - unfold delete_item, bind, delete_one, raise.
    cbn [docs with_docs db_items residents items status_checks].
    rewrite existsb_found, Hfind. cbn [found Z.eqb].
    rewrite delete_first_absent by assumption. now rewrite with_same_items.
Qed.

(** When no item has the id, [add_purchase], [add_usage] and
    [adjust_quantity] all raise 404 "Item not found" and leave the
    database as it was; for [add_usage] the 404 comes before the stock
    check, whatever the qty. *)
Theorem item_routes_not_found (today item_id : string)
    (purchase : PurchaseCreate.t) (usage : UsageCreate.t) (delta : Z)
    (db : DB) :
  find (item_id_is item_id) (items db) = None ->
  add_purchase today item_id purchase db =
    (HTTPException 404 "Item not found", db)
  /\ add_usage today item_id usage db =
    (HTTPException 404 "Item not found", db)
  /\ adjust_quantity item_id delta db =
    (HTTPException 404 "Item not found", db).
Proof.
  intros Hfind.
  unfold add_purchase, add_usage, adjust_quantity, bind, find_one, raise.
  cbn [docs db_items]. rewrite Hfind. cbn [found negb]. auto.
Qed.

Lemma item_routes_not_found_witness :
  find (item_id_is "i9") (items sample_DB) = None
  /\ add_purchase "2024-05-01" "i9" (PurchaseCreate.mk 5 100%float) sample_DB =
       (HTTPException 404 "Item not found", sample_DB)
  /\ add_usage "2024-05-01" "i9" (UsageCreate.mk 1000) sample_DB =
       (HTTPException 404 "Item not found", sample_DB)
  /\ adjust_quantity "i9" 3 sample_DB =
       (HTTPException 404 "Item not found", sample_DB).
Proof.
  split; [reflexivity|].
  apply (item_routes_not_found "2024-05-01" "i9" (PurchaseCreate.mk 5 100%float)
           (UsageCreate.mk 1000) 3 sample_DB eq_refl).
Defined.

(** ** Listings *)

Lemma In_firstn {A : Type} (n : nat) (l : list A) (x : A) :
  In x (firstn n l) -> In x l.
Proof.
  revert l. induction n as [|n IH]; intros [|y l]; simpl; try tauto.
  intros [->|H]; [now left | right; now apply IH].
Qed.

Lemma Ok_inj {A : Type} (a b : A) : @Ok A a = Ok b -> a = b.
Proof. now intros [= ->]. Qed.

Lemma truthy_nonempty (r : string) : r <> "" -> truthy (Some r) = true.
Proof.
  intros Hr. unfold truthy. apply negb_true_iff. now apply String.eqb_neq.
Qed.

(** With a non-empty [resident_id], [get_items] answers with the first
    1000, in storage order, of the items whose [residentId] is that id:
    every item in the answer is a stored item of that resident, the
    answer has at most 1000 entries, and the database is unchanged. *)
Theorem get_items_filters_by_resident (r : string) (db : DB) :
  r <> "" ->
  get_items (Some r) db =
    (Ok (firstn 1000
           (filter (fun it => String.eqb (Item.residentId it) r) (items db))),
     db)
  /\ (forall l, fst (get_items (Some r) db) = Ok l ->
        Forall (fun it => Item.residentId it = r /\ In it (items db)) l
        /\ (List.length l <= 1000)%nat).
Proof.
  intros Hr.
  assert (Hrun : get_items (Some r) db =
            (Ok (firstn 1000
                   (filter (fun it => String.eqb (Item.residentId it) r)
                           (items db))), db)).
  { unfold get_items. rewrite (truthy_nonempty r Hr). reflexivity. }
  split; [exact Hrun|].
  intros l. rewrite Hrun. cbn [fst]. intros H. apply Ok_inj in H.
  subst l. split.
  - apply Forall_forall. intros it Hit. apply In_firstn in Hit.
    apply filter_In in Hit. destruct Hit as [Hin Heq].
    split; [now apply String.eqb_eq | exact Hin].
  - apply firstn_le_length.
Qed.

Lemma get_items_filters_by_resident_witness :
  "r2" <> ""
  /\ get_items (Some "r2") sample_DB =
     (Ok (firstn 1000
            (filter (fun it => String.eqb (Item.residentId it) "r2")
                    (items sample_DB))),
      sample_DB).
Proof.
  split; [discriminate|].
  apply (get_items_filters_by_resident "r2" sample_DB). discriminate.
Defined.

(** While fewer than 1000 residents are stored, a resident that
    [create_resident] stores shows up in the next [get_residents], after
    all the residents that were there, with the name of the request and
    the generated id. *)
Theorem create_resident_then_list (uuid4 : string)
    (resident : ResidentCreate.t) (db : DB) :
  (List.length (residents db) < 1000)%nat ->
  exists db1,
    create_resident uuid4 resident db =
      (Ok (Resident.mk uuid4 (ResidentCreate.name resident)), db1)
    /\ get_residents db1 =
      (Ok (residents db ++ [Resident.mk uuid4 (ResidentCreate.name resident)]),
       db1).
Proof.
  intros Hlen. eexists. split; [reflexivity|].
  unfold get_residents, find_to_list.
  cbn [docs with_docs db_residents residents].
  rewrite filter_no_filter, firstn_all2; [reflexivity|].
  rewrite length_app. cbn [List.length]. lia.
Qed.

Lemma create_resident_then_list_witness :
  (List.length (residents sample_DB) < 1000)%nat
  /\ exists db1,
       create_resident "r3" (ResidentCreate.mk "Test Resident") sample_DB =
         (Ok (Resident.mk "r3" "Test Resident"), db1)
       /\ get_residents db1 =
         (Ok (residents sample_DB ++ [Resident.mk "r3" "Test Resident"]), db1).
Proof.
  assert (H : (List.length (residents sample_DB) < 1000)%nat)
    by (cbn; lia).
  split; [exact H|].
  apply (create_resident_then_list "r3" (ResidentCreate.mk "Test Resident")
           sample_DB H).
Defined.

(** Once 1000 residents or more are stored, [get_residents] answers the
    same after a [create_resident] as before it: the new resident is
    stored but lies beyond the cap of the listing. *)
Theorem create_resident_beyond_cap (uuid4 : string)
    (resident : ResidentCreate.t) (db : DB) :
  (1000 <= List.length (residents db))%nat ->
  fst (get_residents (snd (create_resident uuid4 resident db))) =
    fst (get_residents db)
  /\ residents (snd (create_resident uuid4 resident db)) =
     residents db ++ [Resident.mk uuid4 (ResidentCreate.name resident)].
Proof.
  intros Hlen. split; [|reflexivity].
  unfold get_residents, find_to_list, create_resident, bind, insert_one, ret.
  cbn [docs with_docs db_residents residents fst snd].
  rewrite !filter_no_filter, firstn_app.
  replace (1000 - List.length (residents db))%nat with 0%nat by lia.
  cbn [firstn]. now rewrite app_nil_r.
Qed.

Lemma create_resident_beyond_cap_witness :
  (1000 <= List.length (residents crowded_DB))%nat
  /\ fst (get_residents
            (snd (create_resident "r3" (ResidentCreate.mk "Late") crowded_DB))) =
     fst (get_residents crowded_DB).
Proof.
  assert (H : (1000 <= List.length (residents crowded_DB))%nat).
  { unfold crowded_DB. cbn [residents]. rewrite repeat_length. lia. }
  split; [exact H|].
  apply (create_resident_beyond_cap "r3" (ResidentCreate.mk "Late")
           crowded_DB H).
Defined.

(** An item created for a resident with a non-empty id shows up, last,
    when the items are next listed by that resident id, as long as fewer
    than 1000 items of that resident were stored; whether a resident with
    that id exists plays no part. *)
Theorem create_item_then_list_by_resident (uuid4 : string)
    (item : ItemCreate.t) (db : DB) :
  ItemCreate.residentId item <> "" ->
  (List.length (filter (item_residentId_is (ItemCreate.residentId item))
                  (items db)) < 1000)%nat ->
  exists db1,
    create_item uuid4 item db = (Ok (Item_of_ItemCreate uuid4 item), db1)
    /\ get_items (Some (ItemCreate.residentId item)) db1 =
       (Ok (filter (item_residentId_is (ItemCreate.residentId item)) (items db)
            ++ [Item_of_ItemCreate uuid4 item]),
        db1).
Proof.
  intros Hr Hlen. eexists. split; [reflexivity|].
  unfold get_items. rewrite (truthy_nonempty _ Hr).
  unfold find_to_list. cbn [docs with_docs db_items items].
  rewrite filter_app. cbn [filter].
  unfold item_residentId_is at 2. cbn [Item_of_ItemCreate Item.residentId].
  rewrite String.eqb_refl, firstn_all2; [reflexivity|].
  rewrite length_app. cbn [List.length]. lia.
Qed.

Lemma create_item_then_list_by_resident_witness :
  ItemCreate.residentId (ItemCreate.parse minimal_body) <> ""
  /\ (List.length
        (filter (item_residentId_is
                   (ItemCreate.residentId (ItemCreate.parse minimal_body)))
           (items sample_DB)) < 1000)%nat
  /\ exists db1,
       create_item "i3" (ItemCreate.parse minimal_body) sample_DB =
         (Ok (Item_of_ItemCreate "i3" (ItemCreate.parse minimal_body)), db1)
       /\ get_items (Some "r1") db1 =
          (Ok [soap; Item_of_ItemCreate "i3" (ItemCreate.parse minimal_body)],
           db1).
Proof.
  assert (H1 : ItemCreate.residentId (ItemCreate.parse minimal_body) <> "")
    by discriminate.
  assert (H2 : (List.length
        (filter (item_residentId_is
                   (ItemCreate.residentId (ItemCreate.parse minimal_body)))
           (items sample_DB)) < 1000)%nat) by (cbn; lia).
  split; [exact H1|]. split; [exact H2|].
  apply (create_item_then_list_by_resident "i3"
           (ItemCreate.parse minimal_body) sample_DB H1 H2).
Defined.

(** ** What each writing handler returns and stores, as one equation *)

Lemma update_first_ext {A : Type} (flt : A -> bool) (u v : A -> A)
    (l : list A) :
  (forall x, u x = v x) -> update_first flt u l = update_first flt v l.
Proof.
  intros Huv. induction l as [|x l IH]; simpl; [reflexivity|].
  now rewrite Huv, IH.
Qed.

Lemma update_first_absent {A : Type} (flt : A -> bool) (u : A -> A)
    (l : list A) :
  find flt l = None -> update_first flt u l = l.
Proof.
  induction l as [|x l IH]; simpl; [reflexivity|].
  destruct (flt x); [discriminate|]. intros H. f_equal. auto.
Qed.

Lemma update_and_refresh_run (item_id : string) (u : Item.t -> Item.t)
    (db : DB) (it : Item.t) :
  find (item_id_is item_id) (items db) = Some it ->
  Item.id (u it) = Item.id it ->
  update_and_refresh item_id u db =
  (Ok (u it),
   mk_DB (status_checks db) (residents db)
         (update_first (item_id_is item_id) u (items db))).
Proof.
  intros Hfind Hid.
  destruct (update_and_refresh_spec item_id u db it Hfind Hid)
    as (before & rest & Hl & Hb & Hrun).
  rewrite Hrun, Hl. apply others_before in Hb.
  apply find_some in Hfind. destruct Hfind as [_ Hit].
  now rewrite update_first_middle.
Qed.

Lemma update_item_outcome (item_id : string) (item_update : ItemUpdate.t)
    (db : DB) :
  update_item item_id item_update db =
  match find (item_id_is item_id) (items db) with
  | None => (HTTPException 404 "Item not found", db)
  | Some it =>
      (Ok (updated_item item_update it),
       mk_DB (status_checks db) (residents db)
             (update_first (item_id_is item_id) (updated_item item_update)
                (items db)))
  end.
Proof.
  destruct (find (item_id_is item_id) (items db)) as [it|] eqn:Hfind.
  - unfold update_item, bind at 1. unfold find_one at 1.
    cbn [docs db_items]. rewrite Hfind. cbn [found negb].
    rewrite <- dollar_set_update_dict.
    rewrite (update_first_ext _ (updated_item item_update)
               (dollar_set (update_dict item_update)))
      by (intros x; now rewrite dollar_set_update_dict).
    apply update_and_refresh_run; [exact Hfind|].
    now rewrite dollar_set_update_dict.
  - unfold update_item, bind, find_one, raise. cbn [docs db_items].
    now rewrite Hfind.
Qed.

Lemma add_purchase_outcome (today item_id : string)
    (purchase : PurchaseCreate.t) (db : DB) :
  add_purchase today item_id purchase db =
  match find (item_id_is item_id) (items db) with
  | None => (HTTPException 404 "Item not found", db)
  | Some it =>
      (Ok (purchased_item today (PurchaseCreate.qty purchase)
             (PurchaseCreate.price purchase) it),
       mk_DB (status_checks db) (residents db)
             (update_first (item_id_is item_id)
                (purchased_item today (PurchaseCreate.qty purchase)
                   (PurchaseCreate.price purchase))
                (items db)))
  end.
Proof.
  destruct (find (item_id_is item_id) (items db)) as [it|] eqn:Hfind.
  - unfold add_purchase, bind at 1. unfold find_one at 1.
    cbn [docs db_items]. rewrite Hfind. cbn [found negb].
    exact (update_and_refresh_run item_id
             (purchased_item today (PurchaseCreate.qty purchase)
                (PurchaseCreate.price purchase)) db it Hfind eq_refl).
  - unfold add_purchase, bind, find_one, raise. cbn [docs db_items].
    now rewrite Hfind.
Qed.

Lemma add_usage_outcome (today item_id : string) (usage : UsageCreate.t)
    (db : DB) :
  add_usage today item_id usage db =
  match find (item_id_is item_id) (items db) with
  | None => (HTTPException 404 "Item not found", db)
  | Some it =>
      if Item.quantity it <? UsageCreate.qty usage
      then (HTTPException 400 "Not enough quantity in stock", db)
      else
        (Ok (used_item today (UsageCreate.qty usage) it),
         mk_DB (status_checks db) (residents db)
               (update_first (item_id_is item_id)
                  (used_item today (UsageCreate.qty usage)) (items db)))
  end.
Proof.
  destruct (find (item_id_is item_id) (items db)) as [it|] eqn:Hfind.
  - unfold add_usage, bind at 1. unfold find_one at 1.
    cbn [docs db_items]. rewrite Hfind.
    destruct (Item.quantity it <? UsageCreate.qty usage); [reflexivity|].
    exact (update_and_refresh_run item_id
             (used_item today (UsageCreate.qty usage)) db it Hfind eq_refl).
  - unfold add_usage, bind, find_one, raise. cbn [docs db_items].
    now rewrite Hfind.
Qed.

Lemma adjust_quantity_outcome (item_id : string) (delta : Z) (db : DB) :
  adjust_quantity item_id delta db =
  match find (item_id_is item_id) (items db) with
  | None => (HTTPException 404 "Item not found", db)
  | Some it =>
      (Ok (adjusted_item delta it),
       mk_DB (status_checks db) (residents db)
             (update_first (item_id_is item_id)
                (fun d => set_field d
                   (F_quantity (Z.max 0 (Item.quantity it + delta))))
                (items db)))
  end.
Proof.
  destruct (find (item_id_is item_id) (items db)) as [it|] eqn:Hfind.
  - unfold adjust_quantity, bind at 1. unfold find_one at 1.
    cbn [docs db_items]. rewrite Hfind.
    exact (update_and_refresh_run item_id
             (fun d => set_field d
                (F_quantity (Z.max 0 (Item.quantity it + delta))))
             db it Hfind eq_refl).
  - unfold adjust_quantity, bind, find_one, raise. cbn [docs db_items].
    now rewrite Hfind.
Qed.

Lemma delete_item_outcome (item_id : string) (db : DB) :
  delete_item item_id db =
  match find (item_id_is item_id) (items db) with
  | None => (HTTPException 404 "Item not found", db)
  | Some _ =>
      (Ok "Item deleted successfully",
       mk_DB (status_checks db) (residents db)
             (delete_first (item_id_is item_id) (items db)))
  end.
Proof.
  unfold delete_item, bind, delete_one, ret, raise.
  cbn [docs with_docs db_items residents items status_checks].
  rewrite existsb_found.
  destruct (find (item_id_is item_id) (items db)) eqn:Hfind; cbn [found Z.eqb].
  - reflexivity.
  - rewrite delete_first_absent by assumption. now rewrite with_same_items.
Qed.

Lemma delete_resident_outcome (resident_id : string) (db : DB) :
  delete_resident resident_id db =
  match find (resident_id_is resident_id) (residents db) with
  | None => (HTTPException 404 "Resident not found", db)
  | Some _ =>
      (Ok "Resident and associated items deleted successfully",
       mk_DB (status_checks db)
             (delete_first (resident_id_is resident_id) (residents db))
             (delete_all (item_residentId_is resident_id) (items db)))
  end.
Proof.
  unfold delete_resident, bind, delete_one, delete_many, ret, raise.
  cbn [docs with_docs db_residents db_items residents items status_checks].
  rewrite existsb_found.
  destruct (find (resident_id_is resident_id) (residents db)) eqn:Hfind;
    cbn [found Z.eqb].
  - reflexivity.
  - rewrite delete_first_absent by assumption. now rewrite with_same_items.
Qed.

Lemma update_resident_outcome (resident_id : string)
    (resident_update : ResidentUpdate.t) (db : DB) :
  update_resident resident_id resident_update db =
  match find (resident_id_is resident_id) (residents db) with
  | None => (HTTPException 404 "Resident not found", db)
  | Some r =>
      (Ok (Resident.mk (Resident.id r) (ResidentUpdate.name resident_update)),
       mk_DB (status_checks db)
             (update_first (resident_id_is resident_id)
                (fun d => Resident.mk (Resident.id d)
                            (ResidentUpdate.name resident_update))
                (residents db))
             (items db))
  end.
Proof.
  destruct (find (resident_id_is resident_id) (residents db)) as [r|] eqn:Hfind.
  - destruct (find_split _ _ _ Hfind) as (before & rest & Hl & Hb & Hr).
    unfold update_resident, bind, find_one, update_one, refreshed, ret.
    cbn [docs with_docs db_residents residents items status_checks].
    rewrite Hfind. cbn [found negb].
    rewrite Hl, update_first_middle by assumption.
    rewrite find_middle; [reflexivity | assumption | exact Hr].
  - unfold update_resident, bind, find_one, raise.
    cbn [docs db_residents]. now rewrite Hfind.
Qed.

(** ** Failures and frames *)

Ltac by_outcome :=
  unfold after, serve, respond, bind;
  rewrite ?update_item_outcome, ?add_purchase_outcome, ?add_usage_outcome,
    ?adjust_quantity_outcome, ?delete_item_outcome, ?delete_resident_outcome,
    ?update_resident_outcome.

(** A route leaves alone the collections it has no business with: only
    [POST /status] changes [status_checks]; only the three resident
    routes that write change [residents]; the GET routes, [POST /status]
    and the creation and update of residents leave [items] as they are.
    In particular no item route touches a resident, and the four GET
    routes change nothing at all. *)
Theorem routes_keep_other_collections (rq : request) (db : DB) :
  (writes_status_checks rq = false ->
   status_checks (after rq db) = status_checks db)
  /\ (writes_residents rq = false -> residents (after rq db) = residents db)
  /\ (writes_items rq = false -> items (after rq db) = items db).
Proof.
  destruct rq as [ | u now input | | | u r | rid ru | rid | rid | u b
                 | iid iu | iid | today iid p | today iid us | iid delta ];
    cbn [writes_status_checks writes_residents writes_items];
    (split; [|split]); try discriminate; intros _;
    try reflexivity;
    by_outcome;
    repeat match goal with
           | |- context [match find ?f ?l with _ => _ end] =>
               destruct (find f l)
           | |- context [if ?b then _ else _] => destruct b
           end;
    reflexivity.
Qed.

Lemma routes_keep_other_collections_witness :
  writes_residents (DELETE_items "i1") = false
  /\ residents (after (DELETE_items "i1") sample_DB) = residents sample_DB.
Proof.
  split; [reflexivity|].
  apply (routes_keep_other_collections (DELETE_items "i1") sample_DB).
  reflexivity.
Defined.

(** ** Ids *)

Section Keys.
Context {A K : Type}.
Variable key : A -> K.

Lemma map_update_first (flt : A -> bool) (u : A -> A) (l : list A) :
  (forall x, key (u x) = key x) ->
  map key (update_first flt u l) = map key l.
Proof.
  intros Hu. induction l as [|x l IH]; simpl; [reflexivity|].
  destruct (flt x); simpl; [now rewrite Hu | now rewrite IH].
Qed.

Lemma In_map_delete_first (flt : A -> bool) (l : list A) (k : K) :
  In k (map key (delete_first flt l)) -> In k (map key l).
Proof.
  induction l as [|x l IH]; simpl; [tauto|].
  destruct (flt x); simpl; intuition.
Qed.

Lemma NoDup_map_delete_first (flt : A -> bool) (l : list A) :
  NoDup (map key l) -> NoDup (map key (delete_first flt l)).
Proof.
  induction l as [|x l IH]; simpl; [auto|].
  intros H. inversion H as [|k ks Hk Hks]; subst.
  destruct (flt x); simpl; [exact Hks|].
  constructor; [|auto]. intros Hin. apply Hk.
  now apply In_map_delete_first in Hin.
Qed.

Lemma NoDup_map_delete_all (flt : A -> bool) (l : list A) :
  NoDup (map key l) -> NoDup (map key (delete_all flt l)).
Proof.
  unfold delete_all. induction l as [|x l IH]; simpl; [auto|].
  intros H. inversion H as [|k ks Hk Hks]; subst.
  destruct (negb (flt x)); simpl; [|auto].
  constructor; [|auto]. intros Hin. apply Hk.
  apply in_map_iff in Hin. destruct Hin as (y & Hy & Hin).
  apply filter_In in Hin. apply in_map_iff. exists y. tauto.
Qed.

Lemma NoDup_map_snoc (l : list A) (x : A) :
  NoDup (map key l) -> ~ In (key x) (map key l) ->
  NoDup (map key (l ++ [x])).
Proof.
  induction l as [|y l IH]; simpl; intros H Hx.
  - constructor; [tauto | constructor].
  - inversion H as [|k ks Hk Hks]; subst.
    constructor; [|apply IH; tauto].
    rewrite map_app, in_app_iff. simpl. intros [Hin|[Heq|[]]]; [tauto|].
    apply Hx. now left.
Qed.
End Keys.

(** No request changes the id or the [residentId] of a stored item, or
    the id of a stored resident: unless a request creates or deletes
    documents of the collection, the ids in it, and for items the owners,
    are the same, in the same order, after the request as before. *)
Theorem ids_never_change (rq : request) (db : DB) :
  (adds_or_removes_items rq = false ->
   map item_key (items (after rq db)) = map item_key (items db))
  /\ (adds_or_removes_residents rq = false ->
      map Resident.id (residents (after rq db)) = map Resident.id (residents db)).
Proof.
  destruct rq as [ | u now input | | | u r | rid ru | rid | rid | u b
                 | iid iu | iid | today iid p | today iid us | iid delta ];
    cbn [adds_or_removes_items adds_or_removes_residents];
    split; try discriminate; intros _;
    try reflexivity;
    by_outcome;
    repeat match goal with
           | |- context [match find ?f ?l with _ => _ end] =>
               destruct (find f l)
           | |- context [if ?b then _ else _] => destruct b
           end;
    cbn [snd items residents];
    try reflexivity;
    now apply map_update_first.
Qed.

Lemma ids_never_change_witness :
  adds_or_removes_items
    (PUT_items "i1" (ItemUpdate.mk (Some "bar soap") None None None None)) = false
  /\ map item_key
       (items (after (PUT_items "i1"
                        (ItemUpdate.mk (Some "bar soap") None None None None))
                 sample_DB)) =
     map item_key (items sample_DB).
Proof.
  split; [reflexivity|].
  apply (ids_never_change
           (PUT_items "i1" (ItemUpdate.mk (Some "bar soap") None None None None))
           sample_DB).
  reflexivity.
Defined.

(** As long as [uuid.uuid4()] hands out ids that are not in use, ids
    stay unique: if no two stored items share an id and no two stored
    residents do, the same holds after any request. *)
Theorem unique_ids_preserved (rq : request) (db : DB) :
  unique_ids db -> fresh_uuid rq db -> unique_ids (after rq db).
Proof.
  intros [Hi Hr] Hfresh.
  destruct rq as [ | u now input | | | u r | rid ru | rid | rid | u b
                 | iid iu | iid | today iid p | today iid us | iid delta ];
    unfold unique_ids;
    try (split; assumption);
    by_outcome;
    repeat match goal with
           | |- context [match find ?f ?l with _ => _ end] =>
               destruct (find f l)
           | |- context [if ?b then _ else _] => destruct b
           end;
    unfold ret; cbn [snd items residents fst];
    split;
    first [ assumption
          | apply NoDup_map_snoc; assumption
          | rewrite map_update_first; [assumption | reflexivity]
          | apply NoDup_map_delete_all; assumption
          | apply NoDup_map_delete_first; assumption ].
Qed.

Lemma unique_ids_preserved_witness :
  unique_ids sample_DB
  /\ fresh_uuid (POST_items "i3" minimal_body) sample_DB
  /\ unique_ids (after (POST_items "i3" minimal_body) sample_DB).
Proof.
  assert (H1 : unique_ids sample_DB).
  { split; cbn; repeat constructor; cbn; intuition discriminate. }
  assert (H2 : fresh_uuid (POST_items "i3" minimal_body) sample_DB).
  { cbn. intuition discriminate. }
  split; [exact H1|]. split; [exact H2|].
  apply (unique_ids_preserved (POST_items "i3" minimal_body) sample_DB H1 H2).
Defined.

(** ** After a deletion *)

Section KeyLookup.
Context {A : Type}.
Variable key : A -> string.

Lemma find_key_absent (k : string) (l : list A) :
  ~ In k (map key l) -> find (fun d => String.eqb (key d) k) l = None.
Proof.
  induction l as [|x l IH]; simpl; [reflexivity|]. intros H.
  destruct (String.eqb_spec (key x) k) as [Heq|_]; [tauto|].
  apply IH. tauto.
Qed.

Lemma find_delete_first_unique (k : string) (l : list A) :
  NoDup (map key l) ->
  find (fun d => String.eqb (key d) k)
       (delete_first (fun d => String.eqb (key d) k) l) = None.
Proof.
  induction l as [|x l IH]; simpl; [reflexivity|]. intros H.
  inversion H as [|k' ks Hk Hks]; subst.
  destruct (String.eqb_spec (key x) k) as [Heq|Hne].
  - apply find_key_absent. now rewrite <- Heq.
  - simpl. destruct (String.eqb_spec (key x) k); [tauto | auto].
Qed.
End KeyLookup.

(** When item ids are unique, an item that [delete_item] has deleted is
    gone for every item route: deleting it again, updating it, recording
    a purchase or a usage on it and adjusting it all raise 404 "Item not
    found". *)
Theorem deleted_item_is_gone (today item_id msg : string)
    (item_update : ItemUpdate.t) (purchase : PurchaseCreate.t)
    (usage : UsageCreate.t) (delta : Z) (db db1 : DB) :
  NoDup (map Item.id (items db)) ->
  delete_item item_id db = (Ok msg, db1) ->
  delete_item item_id db1 = (HTTPException 404 "Item not found", db1)
  /\ update_item item_id item_update db1 =
     (HTTPException 404 "Item not found", db1)
  /\ add_purchase today item_id purchase db1 =
     (HTTPException 404 "Item not found", db1)
  /\ add_usage today item_id usage db1 =
     (HTTPException 404 "Item not found", db1)
  /\ adjust_quantity item_id delta db1 =
     (HTTPException 404 "Item not found", db1).
Proof.
  intros Huniq. rewrite delete_item_outcome.
  destruct (find (item_id_is item_id) (items db)); [|discriminate].
  intros [= <- <-].
  rewrite delete_item_outcome, update_item_outcome, add_purchase_outcome,
    add_usage_outcome, adjust_quantity_outcome.
  cbn [items].
  assert (Hgone : find (item_id_is item_id)
                    (delete_first (item_id_is item_id) (items db)) = None)
    by exact (find_delete_first_unique Item.id item_id (items db) Huniq).
  rewrite Hgone. auto.
Qed.

Lemma deleted_item_is_gone_witness :
  NoDup (map Item.id (items sample_DB))
  /\ delete_item "i1" sample_DB =
     (Ok "Item deleted successfully",
      mk_DB [] (residents sample_DB) [towel])
  /\ add_usage "2024-05-01" "i1" (UsageCreate.mk 1)
       (mk_DB [] (residents sample_DB) [towel]) =
     (HTTPException 404 "Item not found",
      mk_DB [] (residents sample_DB) [towel]).
Proof.
  assert (H1 : NoDup (map Item.id (items sample_DB))).
  { cbn. repeat constructor; cbn; intuition discriminate. }
  assert (H2 : delete_item "i1" sample_DB =
               (Ok "Item deleted successfully",
                mk_DB [] (residents sample_DB) [towel])) by reflexivity.
  split; [exact H1|]. split; [exact H2|].
  apply (deleted_item_is_gone "2024-05-01" "i1" "Item deleted successfully"
           (ItemUpdate.mk None None None None None)
           (PurchaseCreate.mk 1 0%float) (UsageCreate.mk 1) 0
           sample_DB _ H1 H2).
Defined.

(** When resident ids are unique, a resident that [delete_resident] has
    deleted is gone: deleting it again and renaming it both raise 404
    "Resident not found". *)
Theorem deleted_resident_is_gone (resident_id msg : string)
    (resident_update : ResidentUpdate.t) (db db1 : DB) :
  NoDup (map Resident.id (residents db)) ->
  delete_resident resident_id db = (Ok msg, db1) ->
  delete_resident resident_id db1 =
    (HTTPException 404 "Resident not found", db1)
  /\ update_resident resident_id resident_update db1 =
    (HTTPException 404 "Resident not found", db1).
Proof.
  intros Huniq. rewrite delete_resident_outcome.
  destruct (find (resident_id_is resident_id) (residents db)); [|discriminate].
  intros [= <- <-].
  rewrite delete_resident_outcome, update_resident_outcome.
  cbn [residents].
  assert (Hgone : find (resident_id_is resident_id)
                    (delete_first (resident_id_is resident_id) (residents db))
                  = None)
    by exact (find_delete_first_unique Resident.id resident_id
                (residents db) Huniq).
  rewrite Hgone. auto.
Qed.

Lemma deleted_resident_is_gone_witness :
  NoDup (map Resident.id (residents sample_DB))
  /\ delete_resident "r1" sample_DB =
     (Ok "Resident and associated items deleted successfully",
      mk_DB [] [Resident.mk "r2" "Tanaka"] [towel])
  /\ delete_resident "r1" (mk_DB [] [Resident.mk "r2" "Tanaka"] [towel]) =
     (HTTPException 404 "Resident not found",
      mk_DB [] [Resident.mk "r2" "Tanaka"] [towel]).
Proof.
  assert (H1 : NoDup (map Resident.id (residents sample_DB))).
  { cbn. repeat constructor; cbn; intuition discriminate. }
  assert (H2 : delete_resident "r1" sample_DB =
               (Ok "Resident and associated items deleted successfully",
                mk_DB [] [Resident.mk "r2" "Tanaka"] [towel]))
    by reflexivity.
  split; [exact H1|]. split; [exact H2|].
  apply (deleted_resident_is_gone "r1" _ (ResidentUpdate.mk "x")
           sample_DB _ H1 H2).
Defined.

Lemma filter_delete_all {A : Type} (flt : A -> bool) (l : list A) :
  filter flt (delete_all flt l) = [].
Proof.
  unfold delete_all. induction l as [|x l IH]; simpl; [reflexivity|].
  destruct (flt x) eqn:Hx; simpl; [exact IH | now rewrite Hx].
Qed.

(** After [delete_resident] has deleted a resident (with a non-empty
    id), listing the items of that resident gives the empty list, whether
    ids are unique or not. *)
Theorem delete_resident_then_no_items (resident_id msg : string)
    (db db1 : DB) :
  resident_id <> "" ->
  delete_resident resident_id db = (Ok msg, db1) ->
  get_items (Some resident_id) db1 = (Ok [], db1).
Proof.
  intros Hr. rewrite delete_resident_outcome.
  destruct (find (resident_id_is resident_id) (residents db)); [|discriminate].
  intros [= <- <-].
  unfold get_items. rewrite (truthy_nonempty _ Hr).
  unfold find_to_list. cbn [docs db_items items].
  now rewrite filter_delete_all, firstn_nil.
Qed.

Lemma delete_resident_then_no_items_witness :
  "r1" <> ""
  /\ delete_resident "r1" sample_DB =
     (Ok "Resident and associated items deleted successfully",
      mk_DB [] [Resident.mk "r2" "Tanaka"] [towel])
  /\ get_items (Some "r1") (mk_DB [] [Resident.mk "r2" "Tanaka"] [towel]) =
     (Ok [], mk_DB [] [Resident.mk "r2" "Tanaka"] [towel]).
Proof.
  assert (H1 : "r1" <> "") by discriminate.
  assert (H2 : delete_resident "r1" sample_DB =
               (Ok "Resident and associated items deleted successfully",
                mk_DB [] [Resident.mk "r2" "Tanaka"] [towel]))
    by reflexivity.
  split; [exact H1|]. split; [exact H2|].
  apply (delete_resident_then_no_items "r1" _ sample_DB _ H1 H2).
Defined.

(** ** Quantities returned, and handlers in sequence *)

(** Served alone (no other request between its awaits), [add_usage]
    and [adjust_quantity] never return an item with a quantity below
    zero, whatever quantity was stored: a usage that passes the stock
    check leaves at least zero, and an adjustment clamps at zero. *)
Theorem usage_and_adjustment_return_nonneg (today item_id : string)
    (usage : UsageCreate.t) (delta : Z) (db db1 db2 : DB) (it1 it2 : Item.t) :
  (add_usage today item_id usage db = (Ok it1, db1) -> 0 <= Item.quantity it1)
  /\ (adjust_quantity item_id delta db = (Ok it2, db2) ->
      0 <= Item.quantity it2).
Proof.
  rewrite add_usage_outcome, adjust_quantity_outcome.
  destruct (find (item_id_is item_id) (items db)) as [it|].
  - split.
    + destruct (Z.ltb_spec (Item.quantity it) (UsageCreate.qty usage));
        [discriminate|].
      intros Hrun. injection Hrun as <- _. cbn [used_item Item.quantity]. lia.
    + intros Hrun. injection Hrun as <- _.
      cbn [adjusted_item Item.quantity]. lia.
  - split; discriminate.
Qed.

Lemma usage_and_adjustment_return_nonneg_witness :
  Item.quantity overdrawn = -4
  /\ add_usage "2024-05-01" "i4" (UsageCreate.mk (-6)) overdrawn_DB =
     (Ok (used_item "2024-05-01" (-6) overdrawn),
      mk_DB [] (residents overdrawn_DB) [used_item "2024-05-01" (-6) overdrawn])
  /\ 0 <= Item.quantity (used_item "2024-05-01" (-6) overdrawn)
  /\ adjust_quantity "i4" 1 overdrawn_DB =
     (Ok (adjusted_item 1 overdrawn),
      mk_DB [] (residents overdrawn_DB) [adjusted_item 1 overdrawn])
  /\ 0 <= Item.quantity (adjusted_item 1 overdrawn).
Proof.
  destruct (usage_and_adjustment_return_nonneg "2024-05-01" "i4"
              (UsageCreate.mk (-6)) 1 overdrawn_DB
              (mk_DB [] (residents overdrawn_DB)
                 [used_item "2024-05-01" (-6) overdrawn])
              (mk_DB [] (residents overdrawn_DB) [adjusted_item 1 overdrawn])
              (used_item "2024-05-01" (-6) overdrawn)
              (adjusted_item 1 overdrawn))
    as [Husage Hadjust].
  split; [reflexivity|].
  split; [reflexivity|]. split; [apply Husage; reflexivity|].
  split; [reflexivity|]. apply Hadjust; reflexivity.
Defined.

(** A usage with a qty the stored quantity covers, on a quantity above
    zero. *)
Example add_usage_returns_nonneg_sample :
  fst (add_usage "2024-05-01" "i1" (UsageCreate.mk 15) sample_DB) =
  Ok (used_item "2024-05-01" 15 soap)
  /\ Item.quantity (used_item "2024-05-01" 15 soap) = 0.
Proof. split; reflexivity. Qed.

Section UpdateTwice.
Context {A : Type}.
Variable flt : A -> bool.

Lemma find_update_first (u : A -> A) (l : list A) (d : A) :
  find flt l = Some d -> flt (u d) = true ->
  find flt (update_first flt u l) = Some (u d).
Proof.
  intros Hfind Hu.
  destruct (find_split _ _ _ Hfind) as (before & rest & -> & Hb & Hd).
  rewrite update_first_middle by assumption. now apply find_middle.
Qed.

Lemma update_first_twice (u v : A -> A) (l : list A) (d : A) :
  find flt l = Some d -> flt (u d) = true ->
  update_first flt v (update_first flt u l) =
  update_first flt (fun x => v (u x)) l.
Proof.
  intros Hfind Hu.
  destruct (find_split _ _ _ Hfind) as (before & rest & -> & Hb & Hd).
  now rewrite !update_first_middle by assumption.
Qed.
End UpdateTwice.

(** On an item whose quantity is at least zero, a purchase of [qty]
    followed by a usage of the same [qty] always succeeds and brings the
    quantity back to what it was; the used counter is up by [qty] and each
    history is longer by one record. *)
Theorem purchase_then_usage_restores_quantity (today1 today2 item_id : string)
    (qty : Z) (price : float) (db : DB) (it : Item.t) :
  find (item_id_is item_id) (items db) = Some it ->
  0 <= Item.quantity it ->
  exists it1 db1 it2 db2,
    add_purchase today1 item_id (PurchaseCreate.mk qty price) db = (Ok it1, db1)
    /\ add_usage today2 item_id (UsageCreate.mk qty) db1 = (Ok it2, db2)
    /\ Item.quantity it2 = Item.quantity it
    /\ Item.used it2 = Item.used it + qty
    /\ Item.purchases it2 = Item.purchases it ++ [Purchase.mk today1 qty price]
    /\ Item.usageHistory it2 =
       Item.usageHistory it ++ [UsageHistory.mk today2 qty].
Proof.
  intros Hfind Hq.
  assert (Hid : item_id_is item_id (purchased_item today1 qty price it) = true).
  { apply find_some in Hfind. exact (proj2 Hfind). }
  eexists _, _, _, _. split.
  { rewrite add_purchase_outcome, Hfind. reflexivity. }
  split.
  { rewrite add_usage_outcome. cbn [items PurchaseCreate.qty PurchaseCreate.price].
    rewrite (find_update_first _ _ _ _ Hfind Hid).
    cbn [UsageCreate.qty].
    destruct (Z.ltb_spec (Item.quantity (purchased_item today1 qty price it)) qty)
      as [Hlt|_]; [cbn in Hlt; lia | reflexivity]. }
  cbn. repeat split. lia.
Qed.

Lemma purchase_then_usage_restores_quantity_witness :
  find (item_id_is "i1") (items sample_DB) = Some soap
  /\ 0 <= Item.quantity soap
  /\ exists it1 db1 it2 db2,
       add_purchase "2024-05-01" "i1" (PurchaseCreate.mk 5 100%float) sample_DB
         = (Ok it1, db1)
       /\ add_usage "2024-05-02" "i1" (UsageCreate.mk 5) db1 = (Ok it2, db2)
       /\ Item.quantity it2 = Item.quantity soap
       /\ Item.used it2 = Item.used soap + 5
       /\ Item.purchases it2 =
          Item.purchases soap ++ [Purchase.mk "2024-05-01" 5 100%float]
       /\ Item.usageHistory it2 =
          Item.usageHistory soap ++ [UsageHistory.mk "2024-05-02" 5].
Proof.
  assert (H : 0 <= Item.quantity soap) by (cbn; lia).
  split; [reflexivity|]. split; [exact H|].
  apply (purchase_then_usage_restores_quantity "2024-05-01" "2024-05-02" "i1"
           5 100%float sample_DB soap eq_refl H).
Defined.

(** Two adjustments in a row amount to one adjustment by the sum of the
    deltas, provided the first one does not clamp (the quantity plus the
    first delta is at least zero). *)
Theorem adjust_quantity_twice (item_id : string) (delta1 delta2 : Z)
    (db : DB) (it : Item.t) :
  find (item_id_is item_id) (items db) = Some it ->
  0 <= Item.quantity it + delta1 ->
  adjust_quantity item_id delta2 (snd (adjust_quantity item_id delta1 db)) =
  adjust_quantity item_id (delta1 + delta2) db.
Proof.
  intros Hfind Hq.
  set (q1 := Z.max 0 (Item.quantity it + delta1)).
  set (u1 := fun d : Item.t => set_field d (F_quantity q1)).
  assert (Hid : item_id_is item_id (u1 it) = true).
  { apply find_some in Hfind. exact (proj2 Hfind). }
  assert (Hq1 : q1 = Item.quantity it + delta1) by (unfold q1; lia).
  rewrite (adjust_quantity_outcome item_id delta1), Hfind. cbn [snd].
  rewrite !adjust_quantity_outcome, Hfind. cbn [items status_checks residents].
  fold q1. fold u1.
  rewrite (find_update_first _ u1 _ _ Hfind Hid).
  rewrite (update_first_twice _ u1 _ _ _ Hfind Hid).
  change (Item.quantity (u1 it)) with q1.
  replace (Z.max 0 (q1 + delta2))
    with (Z.max 0 (Item.quantity it + (delta1 + delta2)))
    by (rewrite Hq1; f_equal; lia).
  f_equal. f_equal. unfold adjusted_item.
  cbn [u1 set_field Item.id Item.residentId Item.name Item.quantity
       Item.used Item.min Item.source Item.purchases Item.usageHistory].
  f_equal. rewrite Hq1. f_equal. lia.
Qed.

Lemma adjust_quantity_twice_witness :
  find (item_id_is "i1") (items sample_DB) = Some soap
  /\ 0 <= Item.quantity soap + 3
  /\ adjust_quantity "i1" (-2) (snd (adjust_quantity "i1" 3 sample_DB)) =
     adjust_quantity "i1" (3 + -2) sample_DB.
Proof.
  assert (H : 0 <= Item.quantity soap + 3) by (cbn; lia).
  split; [reflexivity|]. split; [exact H|].
  apply (adjust_quantity_twice "i1" 3 (-2) sample_DB soap eq_refl H).
Defined.

(** When the first adjustment clamps, the two are no longer one. *)
Example adjust_quantity_twice_clamped :
  fst (adjust_quantity "i2" 7 (snd (adjust_quantity "i2" (-7) sample_DB))) =
    Ok (adjusted_item 4 towel)
  /\ fst (adjust_quantity "i2" (-7 + 7) sample_DB) = Ok towel.
Proof. split; reflexivity. Qed.

Lemma updated_item_twice (item_update : ItemUpdate.t) (it : Item.t) :
  updated_item item_update (updated_item item_update it) =
  updated_item item_update it.
Proof.
  destruct item_update as [[n|] [q|] [u|] [m|] [s|]]; reflexivity.
Qed.

(** [update_item] is idempotent: the same update sent a second time
    returns the same answer and leaves the database as the first did. *)
Theorem update_item_twice (item_id : string) (item_update : ItemUpdate.t)
    (db : DB) :
  update_item item_id item_update (snd (update_item item_id item_update db)) =
  update_item item_id item_update (db).
Proof.
  rewrite (update_item_outcome item_id item_update db).
  destruct (find (item_id_is item_id) (items db)) as [it|] eqn:Hfind;
    cbn [snd].
  - assert (Hid : item_id_is item_id (updated_item item_update it) = true).
    { apply find_some in Hfind. exact (proj2 Hfind). }
    rewrite update_item_outcome. cbn [items status_checks residents].
    rewrite (find_update_first _ _ _ _ Hfind Hid).
    rewrite (update_first_twice _ _ _ _ _ Hfind Hid).
    rewrite updated_item_twice. f_equal. f_equal.
    apply update_first_ext. intros x. apply updated_item_twice.
  - now rewrite update_item_outcome, Hfind.
Qed.

(** ** Legacy status checks *)

Lemma bson_datetime_exact (t : Z) : bson_datetime t = t <-> t mod 1000 = 0.
Proof.
  unfold bson_datetime. pose proof (Z.div_mod t 1000 ltac:(lia)). lia.
Qed.

(** While fewer than 1000 status checks are stored, the next
    [get_status_checks] after a [create_status_check] ends with the
    status check just created: the generated id, the client name of the
    request, and the current time rounded down to a whole millisecond.
    The handler itself returns the time unrounded, so the listed entry is
    the returned one exactly when the time is a whole number of
    milliseconds.  Residents and items are not touched. *)
Theorem create_status_check_then_list (uuid4 : string) (utcnow : Z)
    (input : StatusCheckCreate.t) (db : DB) :
  (List.length (status_checks db) < 1000)%nat ->
  exists db1,
    create_status_check uuid4 utcnow input db =
      (Ok (StatusCheck.mk uuid4 (StatusCheckCreate.client_name input) utcnow),
       db1)
    /\ get_status_checks db1 =
       (Ok (status_checks db
            ++ [StatusCheck.mk uuid4 (StatusCheckCreate.client_name input)
                  (1000 * (utcnow / 1000))]),
        db1)
    /\ (StatusCheck.mk uuid4 (StatusCheckCreate.client_name input)
          (1000 * (utcnow / 1000)) =
        StatusCheck.mk uuid4 (StatusCheckCreate.client_name input) utcnow
        <-> utcnow mod 1000 = 0)
    /\ residents db1 = residents db
    /\ items db1 = items db.
Proof.
  intros Hlen. eexists. split; [reflexivity|].
  split; [|split; [|split; reflexivity]].
  - unfold get_status_checks, find_to_list.
    cbn [docs with_docs db_status_checks status_checks].
    rewrite filter_no_filter, firstn_all2; [reflexivity|].
    rewrite length_app. cbn [List.length]. lia.
  - rewrite <- bson_datetime_exact. unfold bson_datetime. split.
    + now intros [= E].
    + now intros ->.
Qed.

Lemma create_status_check_then_list_witness :
  (List.length (status_checks sample_DB) < 1000)%nat
  /\ exists db1,
       create_status_check "s1" 1714521600123456
         (StatusCheckCreate.mk "Test Client") sample_DB =
         (Ok (StatusCheck.mk "s1" "Test Client" 1714521600123456), db1)
       /\ get_status_checks db1 =
          (Ok (status_checks sample_DB
               ++ [StatusCheck.mk "s1" "Test Client"
                     (1000 * (1714521600123456 / 1000))]),
           db1)
       /\ (StatusCheck.mk "s1" "Test Client" (1000 * (1714521600123456 / 1000)) =
           StatusCheck.mk "s1" "Test Client" 1714521600123456
           <-> 1714521600123456 mod 1000 = 0)
       /\ residents db1 = residents sample_DB
       /\ items db1 = items sample_DB.
Proof.
  assert (H : (List.length (status_checks sample_DB) < 1000)%nat)
    by (cbn; lia).
  split; [exact H|].
  apply (create_status_check_then_list "s1" 1714521600123456
           (StatusCheckCreate.mk "Test Client") sample_DB H).
Defined.

(** The time of the request above is not a whole millisecond: the listing
    shows 123 milliseconds where the handler returned 123456
    microseconds. *)
Example create_status_check_rounds :
  fst (get_status_checks
         (snd (create_status_check "s1" 1714521600123456
                 (StatusCheckCreate.mk "Test Client") empty_DB))) =
  Ok [StatusCheck.mk "s1" "Test Client" 1714521600123000].
Proof. reflexivity. Qed.

(** ** What a creation stores *)

(** [create_item] stores what the body gives, unchecked: the
    [residentId] and the name as sent, each of quantity, used and min as
    sent or 0 when the key is omitted, and as id the generated one, even
    when the body carries an id of its own. *)
Theorem create_item_stores_body (uuid4 : string) (b : ItemCreate.body)
    (db : DB) :
  exists it,
    create_item uuid4 (ItemCreate.parse b) db =
      (Ok it, mk_DB (status_checks db) (residents db) (items db ++ [it]))
    /\ Item.id it = uuid4
    /\ Item.residentId it = ItemCreate.b_residentId b
    /\ Item.name it = ItemCreate.b_name b
    /\ Item.quantity it =
       match ItemCreate.b_quantity b with Some q => q | None => 0 end
    /\ Item.used it =
       match ItemCreate.b_used b with Some n => n | None => 0 end
    /\ Item.min it =
       match ItemCreate.b_min b with Some n => n | None => 0 end
    /\ Item.source it =
       match ItemCreate.b_source b with Some s => s | None => "購入" end.
Proof.
  eexists. split; [apply create_item_run|].
  cbn. repeat split.
Qed.

(** * Requests that interleave *)

Ltac task_simpl :=
  cbn [respond_task run_among refreshed_task interfere tl fst snd
       found negb Z.eqb docs with_docs db_status_checks db_residents db_items
       status_checks residents items].

Ltac run_task :=
  unfold serve_task, root_task, create_status_check_task,
    get_status_checks_task, get_residents_task, create_resident_task,
    update_resident_task, delete_resident_task, get_items_task,
    create_item_task, update_item_task, delete_item_task, add_purchase_task,
    add_usage_task, adjust_quantity_task;
  cbn [respond_task run_among interfere tl];
  unfold find_one, find_to_list, insert_one, update_one, delete_one,
    delete_many;
  task_simpl.

Ltac split_task :=
  repeat (match goal with
          | |- context [match find ?f ?l with _ => _ end] =>
              destruct (find f l) eqn:?
          | |- context [found (find ?f ?l)] => destruct (find f l) eqn:?
          | |- context [existsb ?f ?l] => destruct (existsb f l) eqn:?
          | |- context [if ?a <? ?b then _ else _] => destruct (Z.ltb_spec a b)
          | |- context [refreshed_task (find ?f ?l)] =>
              destruct (find f l) eqn:?
          end; task_simpl).

(** Run with no other request about, the task of a request answers and
    leaves the database as its handler does. *)
Lemma serve_task_alone (rq : request) (db : DB) :
  fst (run_among (serve_task rq) [] db) = serve rq db.
Proof.
  destruct rq as [ | u now input | | | u r | rid ru | rid | rid | u b
                 | iid iu | iid | today iid p | today iid us | iid delta ];
    try reflexivity.
  all: run_task; run_handler; split_task; try reflexivity.
Qed.

(** ** The quantity invariant, request by request and call by call *)

Section QuantityWrites.
Variable flt : Item.t -> bool.
Variable l : list Item.t.
Hypothesis Hl : Forall (fun it => 0 <= Item.quantity it) l.

Lemma stored_quantity_nonneg (x : Item.t) :
  find flt l = Some x -> 0 <= Item.quantity x.
Proof.
  intros Hx. apply find_some in Hx. destruct Hx as [Hin _].
  rewrite Forall_forall in Hl. now apply Hl.
Qed.

Lemma update_write_keeps (iu : ItemUpdate.t) :
  match find flt l, ItemUpdate.quantity iu with
  | Some _, Some q => 0 <=? q
  | _, _ => true
  end = true ->
  Forall (fun it => 0 <= Item.quantity it)
         (update_first flt (dollar_set (update_dict iu)) l).
Proof.
  intros Hc. apply Forall_update_first; [exact Hl|]. intros x Hx.
  rewrite Hx in Hc. rewrite dollar_set_update_dict.
  unfold updated_item. cbn [Item.quantity ItemCreate.or_default].
  destruct (ItemUpdate.quantity iu) as [q|]; cbn [ItemCreate.or_default].
  - now apply Z.leb_le.
  - now apply stored_quantity_nonneg.
Qed.

Lemma purchase_write_keeps (today : string) (p : PurchaseCreate.t) :
  match find flt l with
  | Some it => 0 <=? Item.quantity it + PurchaseCreate.qty p
  | None => true
  end = true ->
  Forall (fun it => 0 <= Item.quantity it)
         (update_first flt
            (fun d => push_purchases
                        (Purchase.mk today (PurchaseCreate.qty p)
                                     (PurchaseCreate.price p))
                        (inc_quantity (PurchaseCreate.qty p) d)) l).
Proof.
  intros Hc. apply Forall_update_first; [exact Hl|]. intros x Hx.
  rewrite Hx in Hc. apply Z.leb_le in Hc. exact Hc.
Qed.

Lemma usage_write_keeps (today : string) (u : UsageCreate.t) :
  match find flt l with
  | Some it => UsageCreate.qty u <=? Item.quantity it
  | None => true
  end = true ->
  Forall (fun it => 0 <= Item.quantity it)
         (update_first flt
            (fun d => push_usageHistory
                        (UsageHistory.mk today (UsageCreate.qty u))
                        (inc_used (UsageCreate.qty u)
                           (inc_quantity (- UsageCreate.qty u) d))) l).
Proof.
  intros Hc. apply Forall_update_first; [exact Hl|]. intros x Hx.
  rewrite Hx in Hc. apply Z.leb_le in Hc.
  cbn [push_usageHistory inc_used inc_quantity set_field Item.quantity
       Item.used].
  lia.
Qed.

Lemma adjust_write_keeps (q : Z) :
  Forall (fun it => 0 <= Item.quantity it)
         (update_first flt (fun d => set_field d (F_quantity (Z.max 0 q))) l).
Proof.
  apply Forall_update_first; [exact Hl|]. intros x _.
  cbn [set_field Item.quantity]. lia.
Qed.
End QuantityWrites.

Lemma In_update_first_found {A : Type} (flt : A -> bool) (u : A -> A)
    (l : list A) (x : A) :
  find flt l = Some x -> In (u x) (update_first flt u l).
Proof.
  intros Hx. destruct (find_split _ _ _ Hx) as (before & rest & -> & Hb & Hd).
  rewrite update_first_middle by assumption. apply in_elt.
Qed.

(** Served alone, a request that meets its condition keeps the
    invariant. *)
Lemma after_keeps_quantity_nonneg (rq : request) (db : DB) :
  quantity_nonneg db ->
  keeps_quantity_nonneg rq db = true ->
  quantity_nonneg (after rq db).
Proof.
  intros Hdb Hc. apply after_Forall; [exact Hdb|..].
  - intros u b ->. now apply Z.leb_le.
  - intros iid iu it -> Hfind. cbn [keeps_quantity_nonneg] in Hc.
    rewrite Hfind in Hc. unfold updated_item.
    cbn [Item.quantity]. destruct (ItemUpdate.quantity iu) as [q|];
      cbn [ItemCreate.or_default].
    + now apply Z.leb_le.
    + now apply (stored_quantity_nonneg (item_id_is iid) (items db)).
  - intros today iid p it -> Hfind. cbn [keeps_quantity_nonneg] in Hc.
    rewrite Hfind in Hc. now apply Z.leb_le.
  - intros today iid u it _ _ Hle. cbn [used_item Item.quantity]. lia.
  - intros iid delta it _ _. cbn [adjusted_item Item.quantity]. lia.
Qed.

(** Served alone, a request that keeps the invariant meets its
    condition. *)
Lemma after_quantity_nonneg_needs (rq : request) (db : DB) :
  quantity_nonneg (after rq db) -> keeps_quantity_nonneg rq db = true.
Proof.
  unfold quantity_nonneg. rewrite Forall_forall.
  destruct rq as [ | u now input | | | u r | rid ru | rid | rid | u b
                 | iid iu | iid | today iid p | today iid us | iid delta ];
    try reflexivity; cbn [keeps_quantity_nonneg]; intros Hafter.
  - apply Z.leb_le.
    apply (Hafter (Item_of_ItemCreate u (ItemCreate.parse b))).
    unfold after, serve, respond, bind. rewrite create_item_run.
    cbn [snd ret items]. apply in_elt.
  - destruct (find (item_id_is iid) (items db)) as [it|] eqn:Hfind;
      [|reflexivity].
    destruct (ItemUpdate.quantity iu) as [q|] eqn:Hq; [|reflexivity].
    apply Z.leb_le.
    assert (Hin : In (updated_item iu it) (items (after (PUT_items iid iu) db))).
    { unfold after, serve, respond, bind.
      rewrite update_item_outcome, Hfind. cbn [snd ret items].
      now apply In_update_first_found. }
    apply Hafter in Hin. unfold updated_item in Hin.
    cbn [Item.quantity] in Hin. now rewrite Hq in Hin.
  - destruct (find (item_id_is iid) (items db)) as [it|] eqn:Hfind;
      [|reflexivity].
    apply Z.leb_le.
    assert (Hin : In (purchased_item today (PurchaseCreate.qty p)
                        (PurchaseCreate.price p) it)
                     (items (after (POST_purchase today iid p) db))).
    { unfold after, serve, respond, bind.
      rewrite add_purchase_outcome, Hfind. cbn [snd ret items].
      now apply In_update_first_found. }
    apply Hafter in Hin. exact Hin.
Qed.

(** In any schedule, a storage call of a request's task keeps the
    invariant when the request meets its condition at that moment. *)
Lemma calls_keep_quantity_nonneg (rq : request) (others : list (DB -> DB))
    (db : DB) :
  Forall (fun s => quantity_nonneg (fst s) ->
                   call_keeps_quantity_nonneg rq (fst s) = true ->
                   quantity_nonneg (snd s))
         (snd (run_among (serve_task rq) others db)).
Proof.
  destruct rq as [ | u now input | | | u r | rid ru | rid | rid | u b
                 | iid iu | iid | today iid p | today iid us | iid delta ];
    run_task; split_task;
    repeat (constructor; [cbn [fst snd]; intros Hinv Hc|]);
    try constructor;
    try exact Hinv;
    unfold quantity_nonneg in *; cbn [items] in *;
    cbn [call_keeps_quantity_nonneg keeps_quantity_nonneg] in Hc.
  all: first
    [ now apply Forall_delete_all
    | now apply Forall_delete_first
    | now apply update_write_keeps
    | now apply purchase_write_keeps
    | now apply usage_write_keeps
    | now apply adjust_write_keeps
    | apply Forall_app; split; [exact Hinv|];
      constructor; [now apply Z.leb_le | constructor] ].
Qed.

(** C6, amended.  With every stored quantity at least zero:
    - a request served alone leaves every quantity at least zero exactly
      when the quantity it stores unchecked is at least zero: the
      quantity of an item creation (0 when omitted), the quantity an item
      update gives for an item it finds, the quantity plus qty a purchase
      leaves on the item it finds; usage, adjustment and every other
      request always do;
    - so does every run of requests served one after another, each
      meeting that condition when its turn comes;
    - when requests interleave, each storage call of a request keeps
      every quantity at least zero under the same condition taken at the
      time of the call, and for a usage under the condition that the item
      still has the qty in stock at the time of its decrement, which the
      check made one [await] earlier does not guarantee. *)
Theorem quantity_nonneg_kept :
  (forall rq db,
     quantity_nonneg db ->
     (quantity_nonneg (after rq db) <-> keeps_quantity_nonneg rq db = true))
  /\ (forall rqs db,
        quantity_nonneg db ->
        all_keep_quantity_nonneg rqs db = true ->
        quantity_nonneg (run rqs db))
  /\ (forall rq others db,
        Forall (fun s => quantity_nonneg (fst s) ->
                         call_keeps_quantity_nonneg rq (fst s) = true ->
                         quantity_nonneg (snd s))
               (snd (run_among (serve_task rq) others db))).
Proof.
  split; [|split].
  - intros rq db Hdb. split.
    + apply after_quantity_nonneg_needs.
    + now apply after_keeps_quantity_nonneg.
  - intros rqs. induction rqs as [|rq rqs IH]; intros db Hdb Hc.
    + exact Hdb.
    + cbn [all_keep_quantity_nonneg] in Hc. apply andb_true_iff in Hc.
      destruct Hc as [Hrq Hrqs]. cbn [run fold_left].
      apply IH; [|exact Hrqs]. now apply after_keeps_quantity_nonneg.
  - exact calls_keep_quantity_nonneg.
Qed.

Lemma quantity_nonneg_kept_witness :
  quantity_nonneg sample_DB
  /\ keeps_quantity_nonneg
       (POST_purchase "2024-05-02" "i2" (PurchaseCreate.mk (-2) 100%float))
       sample_DB = true
  /\ quantity_nonneg
       (after (POST_purchase "2024-05-02" "i2" (PurchaseCreate.mk (-2) 100%float))
          sample_DB)
  /\ all_keep_quantity_nonneg
       [POST_usage "2024-05-01" "i1" (UsageCreate.mk 15);
        POST_adjust_quantity "i2" (-7);
        POST_purchase "2024-05-02" "i1" (PurchaseCreate.mk 5 100%float);
        POST_purchase "2024-05-02" "i1" (PurchaseCreate.mk (-5) 100%float);
        PUT_items "i1" (ItemUpdate.mk None (Some 0) None None None);
        POST_items "i3" minimal_body]
       sample_DB = true
  /\ quantity_nonneg
       (run [POST_usage "2024-05-01" "i1" (UsageCreate.mk 15);
             POST_adjust_quantity "i2" (-7);
             POST_purchase "2024-05-02" "i1" (PurchaseCreate.mk 5 100%float);
             POST_purchase "2024-05-02" "i1" (PurchaseCreate.mk (-5) 100%float);
             PUT_items "i1" (ItemUpdate.mk None (Some 0) None None None);
             POST_items "i3" minimal_body]
            sample_DB).
Proof.
  assert (H : quantity_nonneg sample_DB)
    by (repeat constructor; discriminate).
  destruct quantity_nonneg_kept as (Hone & Hrun & _).
  split; [exact H|]. split; [reflexivity|].
  split; [apply (Hone _ sample_DB H); reflexivity|].
  split; [reflexivity|].
  apply (Hrun _ sample_DB H). reflexivity.
Defined.

(** Two usage requests for the last unit of an item, interleaved at
    their awaits: both pass the stock check, both decrement, and the
    quantity ends up below zero. *)
Example usage_race_goes_negative :
  quantity_nonneg last_unit_DB
  /\ exists it1 it2 db',
       interleave [true; false; true; false; true; false]
         (add_usage_task "2024-05-01" "i1" (UsageCreate.mk 1))
         (add_usage_task "2024-05-01" "i1" (UsageCreate.mk 1))
         last_unit_DB =
       (Return (Ok it1), Return (Ok it2), db')
       /\ Item.quantity it2 = -1
       /\ ~ quantity_nonneg db'.
Proof.
  split; [repeat constructor; discriminate|].
  eexists _, _, _. split; [reflexivity|]. split; [reflexivity|].
  intros H. inversion H as [|x l Hx Hl]; subst. now apply Hx.
Qed.

(** ** Errors *)

Lemma served_alone_errors (rq : request) (db db' : DB)
    (sc : Z) (detail : string) :
  serve rq db = (HTTPException sc detail, db') ->
  db' = db /\ raised_by_handler rq sc detail.
Proof.
  unfold raised_by_handler.
  destruct rq as [ | u now input | | | u r | rid ru | rid | rid | u b
                 | iid iu | iid | today iid p | today iid us | iid delta ];
    by_outcome;
    try (cbn; discriminate).
  - destruct (find _ _); cbn; intros [= <- <- <-]; auto.
  - destruct (find _ _); cbn; intros [= <- <- <-]; auto.
  - destruct (find _ _); cbn; intros [= <- <- <-]; auto.
  - destruct (find _ _); cbn; intros [= <- <- <-]; auto.
  - destruct (find _ _); cbn; intros [= <- <- <-]; auto.
  - destruct (find _ _) as [it|]; cbn.
    + destruct (Item.quantity it <? UsageCreate.qty us); cbn;
        intros [= <- <- <-].
      split; [reflexivity|]. right. right. repeat split.
      now exists today, iid, us.
    + intros [= <- <- <-]. auto.
  - destruct (find _ _); cbn; intros [= <- <- <-]; auto.
Qed.

Lemma calls_before_raise (rq : request) (others : list (DB -> DB))
    (db dbf : DB) (sc : Z) (detail : string) (calls : list (DB * DB)) :
  run_among (serve_task rq) others db = (HTTPException sc detail, dbf, calls) ->
  (sc = 500 /\ detail = "Internal Server Error")
  \/ (Forall (fun s => snd s = fst s) calls /\ raised_by_handler rq sc detail).
Proof.
  unfold raised_by_handler.
  destruct rq as [ | u now input | | | u r | rid ru | rid | rid | u b
                 | iid iu | iid | today iid p | today iid us | iid delta ];
    run_task; split_task;
    intros Hrun; inversion Hrun; subst; clear Hrun;
    first
      [ left; split; reflexivity
      | right; split;
        [ repeat constructor
        | first [ left; split; reflexivity
                | right; left; split; reflexivity
                | right; right; repeat split; now eexists _, _, _ ] ] ].
  - cbn [fst snd]. rewrite delete_first_absent; [now rewrite with_same_items|].
    match goal with
    | H : existsb _ _ = false |- _ => rewrite existsb_found in H
    end.
    now destruct (find _ _).
  - cbn [fst snd]. rewrite delete_first_absent; [now rewrite with_same_items|].
    match goal with
    | H : existsb _ _ = false |- _ => rewrite existsb_found in H
    end.
    now destruct (find _ _).
Qed.

(** In any schedule, when the task of a request ends with an exception,
    either it is one the handler raises itself (404 "Resident not found",
    404 "Item not found", or, from the usage route only, 400 "Not enough
    quantity in stock") and then none of the task's storage calls changed
    the database, or it is the server error of a read-back that found no
    document after the task's own update.  Served alone, the second case
    does not arise: a request answered with an exception leaves the
    database exactly as it was. *)
Theorem raised_errors_precede_writes :
  (forall rq others db dbf sc detail calls,
     run_among (serve_task rq) others db =
       (HTTPException sc detail, dbf, calls) ->
     (sc = 500 /\ detail = "Internal Server Error")
     \/ (Forall (fun s => snd s = fst s) calls
         /\ raised_by_handler rq sc detail))
  /\ (forall rq db db' sc detail,
        serve rq db = (HTTPException sc detail, db') ->
        db' = db /\ raised_by_handler rq sc detail).
Proof.
  split.
  - intros rq others db dbf sc detail calls. apply calls_before_raise.
  - intros rq db db' sc detail. apply served_alone_errors.
Qed.

Lemma raised_errors_precede_writes_witness :
  run_among (serve_task (POST_usage "2024-05-01" "i1" (UsageCreate.mk 1000)))
    [after (POST_adjust_quantity "i2" 4)] sample_DB =
    (HTTPException 400 "Not enough quantity in stock",
     after (POST_adjust_quantity "i2" 4) sample_DB,
     [(after (POST_adjust_quantity "i2" 4) sample_DB,
       after (POST_adjust_quantity "i2" 4) sample_DB)])
  /\ ((400 = 500 /\ "Not enough quantity in stock" = "Internal Server Error")
      \/ (Forall (fun s : DB * DB => snd s = fst s)
            [(after (POST_adjust_quantity "i2" 4) sample_DB,
              after (POST_adjust_quantity "i2" 4) sample_DB)]
          /\ raised_by_handler
               (POST_usage "2024-05-01" "i1" (UsageCreate.mk 1000))
               400 "Not enough quantity in stock"))
  /\ serve (DELETE_items "i9") sample_DB =
     (HTTPException 404 "Item not found", sample_DB)
  /\ (sample_DB = sample_DB
      /\ raised_by_handler (DELETE_items "i9") 404 "Item not found").
Proof.
  destruct raised_errors_precede_writes as [Hamong Halone].
  split; [reflexivity|].
  split.
  { apply (Hamong (POST_usage "2024-05-01" "i1" (UsageCreate.mk 1000))
             [after (POST_adjust_quantity "i2" 4)] sample_DB
             (after (POST_adjust_quantity "i2" 4) sample_DB)).
    reflexivity. }
  split; [reflexivity|].
  apply (Halone (DELETE_items "i9") sample_DB sample_DB). reflexivity.
Defined.

(** The read-back that finds nothing: another request deletes the item
    between the update and the read-back of [update_item].  The update
    was made, and the answer is a server error. *)
Example read_back_after_delete :
  fst (run_among
         (serve_task (PUT_items "i1"
                        (ItemUpdate.mk (Some "bar soap") None None None None)))
         [fun db => db; fun db => db; after (DELETE_items "i1")]
         sample_DB) =
  (HTTPException 500 "Internal Server Error",
   mk_DB [] (residents sample_DB) [towel]).
Proof. reflexivity. Qed.
